(** * later: weekly planner renderer (src/later/__main__.py)

    A shallow embedding of [DeferredDict], [WEEKDAY_MAP], [WeekdayTask] and
    [render_template], and the properties of the specification proved or
    refuted on it.

    Conventions of the embedding.
    - YAML data is a [value]; a Python dict is an association list in
      insertion order, with string keys (first binding wins on lookup).
    - A Python exception is an [exn]; fallible pure code returns a [result].
    - [datetime.date] is its proleptic Gregorian ordinal (a [Z]), with the
      range checks of the datetime module written out.
    - Code that touches the clock or the process locale runs in the
      state-and-error monad [M] over a [world].
    - Strings that are only compared or passed around are [string]; the
      formatted date, which is indexed by character, is a [text], a list of
      Unicode code points. *)

From Stdlib Require Import ZArith List String Ascii Bool Lia.
Import ListNotations.
Open Scope Z_scope.

(** ** Python values and exceptions *)

#[warnings="-register-all"]
Inductive value : Type :=
| VNone
| VBool (b : bool)
| VInt (z : Z)
| VStr (s : string)
| VList (l : list value)
| VDict (d : list (string * value)).

(** The exceptions the code can raise.  The specification's [MissingField],
    [UnknownWeekday] and [KeyNotFound] are all Python's [KeyError], told
    apart by the key and the mapping that was indexed. *)
Inductive exn : Type :=
| KeyError (key : string)
| TypeError
| AttributeError
| IndexError
| OverflowError
| LocaleError
| TemplateError (msg : string).

Inductive result (A : Type) : Type :=
| Ok (a : A)
| Raise (e : exn).
Arguments Ok {A} a.
Arguments Raise {A} e.

Definition rbind {A B} (r : result A) (f : A -> result B) : result B :=
  match r with
  | Ok a => f a
  | Raise e => Raise e
  end.

Declare Scope result_scope.
Delimit Scope result_scope with result.
Notation "x <- r ;; k" := (rbind r (fun x => k))
  (at level 61, r at next level, right associativity) : result_scope.

(** ** Dict and container operations of Python used by the code *)

Module Py.

(** [d[key]] on the association list of a dict. *)
Fixpoint lookup {A : Type} (key : string) (d : list (string * A))
  : option A :=
  match d with
  | [] => None
  | (k, v) :: d' => if String.eqb k key then Some v else lookup key d'
  end.

(** [sub in s] for two strings. *)
Fixpoint is_substring (sub s : string) : bool :=
  if String.prefix sub s then true
  else match s with
       | EmptyString => false
       | String _ s' => is_substring sub s'
       end.

Definition is_str (key : string) (v : value) : bool :=
  match v with
  | VStr s => String.eqb s key
  | _ => false
  end.

(** [key in v]. *)
Definition contains (key : string) (v : value) : result bool :=
  match v with
  | VDict d => Ok (match lookup key d with Some _ => true | None => false end)
  | VList l => Ok (existsb (is_str key) l)
  | VStr s => Ok (is_substring key s)
  | VNone | VBool _ | VInt _ => Raise TypeError
  end.

(** [d[key]] on a dict whose values are not YAML data. *)
Definition getitem_map {A : Type} (d : list (string * A)) (key : string)
  : result A :=
  match lookup key d with
  | Some x => Ok x
  | None => Raise (KeyError key)
  end.

(** [v[key]] with a string key. *)
Definition getitem (v : value) (key : string) : result value :=
  match v with
  | VDict d =>
      match lookup key d with
      | Some x => Ok x
      | None => Raise (KeyError key)
      end
  | _ => Raise TypeError
  end.

(** [v.get(key, default)]: only dicts have the method. *)
Definition get (v : value) (key : string) (default : value) : result value :=
  match v with
  | VDict d =>
      match lookup key d with
      | Some x => Ok x
      | None => Ok default
      end
  | _ => Raise AttributeError
  end.

(** [v.items()]. *)
Definition items (v : value) : result (list (string * value)) :=
  match v with
  | VDict d => Ok d
  | _ => Raise AttributeError
  end.

End Py.

(** ** DeferredDict *)

Record DeferredDict : Type := mkDeferredDict {
  dd_data : value;
  dd_parent_data : value
}.

Definition DeferredDict_getitem (self : DeferredDict) (key : string)
  : result value :=
  (b <- Py.contains key (dd_data self) ;;
   if b then Py.getitem (dd_data self) key
   else Py.getitem (dd_parent_data self) key)%result.

(** ** WEEKDAY_MAP *)

Definition WEEKDAY_MAP : list (string * Z) :=
  [ ("monday"%string, 0);
    ("tuesday"%string, 1);
    ("wednesday"%string, 2);
    ("thursday"%string, 3);
    ("friday"%string, 4);
    ("saturday"%string, 5);
    ("sunday"%string, 6) ].

(** ** datetime.date and datetime.timedelta *)

Module Date.

Definition MAXORDINAL : Z := 3652059.   (* date(9999, 12, 31).toordinal() *)
Definition MAXDELTA : Z := 999999999.   (* timedelta.max.days *)

Definition valid (d : Z) : Prop := 1 <= d <= MAXORDINAL.

(** [timedelta(days=n)] as its number of days. *)
Definition timedelta_days (n : Z) : result Z :=
  if Z.abs n <=? MAXDELTA then Ok n else Raise OverflowError.

(** [timedelta(weeks=w)]. *)
Definition timedelta_weeks (w : Z) : result Z := timedelta_days (7 * w).

(** [date + timedelta]. *)
Definition add (d delta : Z) : result Z :=
  let o := d + delta in
  if (0 <? o) && (o <=? MAXORDINAL) then Ok o else Raise OverflowError.

(** [date - timedelta], which is [date + timedelta(-delta.days)]. *)
Definition sub (d delta : Z) : result Z :=
  (m <- timedelta_days (- delta) ;; add d m)%result.

(** [date.weekday()]: Monday is 0, Sunday is 6. *)
Definition weekday (d : Z) : Z := (d + 6) mod 7.

(** [_DAYS_IN_MONTH] and [_DAYS_BEFORE_MONTH]: lists indexed by month, with
    -1 at index 0; [_ord2ymd] indexes them within 1..12 only. *)
Definition DAYS_IN_MONTH (m : Z) : Z :=
  match m with
  | 1 => 31 | 2 => 28 | 3 => 31 | 4 => 30 | 5 => 31 | 6 => 30
  | 7 => 31 | 8 => 31 | 9 => 30 | 10 => 31 | 11 => 30 | 12 => 31
  | _ => -1
  end.

Definition DAYS_BEFORE_MONTH (m : Z) : Z :=
  match m with
  | 1 => 0 | 2 => 31 | 3 => 59 | 4 => 90 | 5 => 120 | 6 => 151
  | 7 => 181 | 8 => 212 | 9 => 243 | 10 => 273 | 11 => 304 | 12 => 334
  | _ => -1
  end.

Definition b2z (b : bool) : Z := if b then 1 else 0.

(** [_ord2ymd]: ordinal to (year, month, day). *)
Definition ord2ymd (ordinal : Z) : Z * Z * Z :=
  let n := ordinal - 1 in
  let n400 := n / 146097 in
  let n := n mod 146097 in
  let year := n400 * 400 + 1 in
  let n100 := n / 36524 in
  let n := n mod 36524 in
  let n4 := n / 1461 in
  let n := n mod 1461 in
  let n1 := n / 365 in
  let n := n mod 365 in
  let year := year + n100 * 100 + n4 * 4 + n1 in
  if (n1 =? 4) || (n100 =? 4) then (year - 1, 12, 31)
  else
    let leapyear := (n1 =? 3) && (negb (n4 =? 24) || (n100 =? 3)) in
    let month := Z.shiftr (n + 50) 5 in
    let preceding :=
      DAYS_BEFORE_MONTH month + b2z ((2 <? month) && leapyear) in
    if n <? preceding then
      let month := month - 1 in
      let preceding :=
        preceding - (DAYS_IN_MONTH month + b2z ((month =? 2) && leapyear)) in
      (year, month, n - preceding + 1)
    else (year, month, n - preceding + 1).

Definition month (d : Z) : Z := snd (fst (ord2ymd d)).
Definition day (d : Z) : Z := snd (ord2ymd d).

End Date.

(** ** Text: a Python [str] indexed by character *)

Definition text : Type := list N.

Definition text_of_string (s : string) : text :=
  map N_of_ascii (list_ascii_of_string s).

(** Decimal digits of a natural number, most significant first; [fuel]
    bounds the number of digits. *)
Fixpoint digits (fuel : nat) (n : N) (acc : text) : text :=
  match fuel with
  | O => acc
  | S fuel' =>
      let acc' := (48 + n mod 10)%N :: acc in
      if (n <? 10)%N then acc' else digits fuel' (n / 10)%N acc'
  end.

(** The [%-d] directive: day of the month, no padding. *)
Definition decimal (z : Z) : text := digits 20 (Z.to_N z) [].

(** ** The process: clock, locale, and a trace of template-engine calls *)

(** What the template engine is asked to do; kept as a ghost trace so that
    "before any template evaluation" can be stated. *)
Inductive engine_event : Type :=
| EvTemplate (source : string)   (* jinja2.Template(source) *)
| EvRender.                      (* template_ob.render(...) *)

Record world : Type := mkWorld {
  clock : Z;                     (* what datetime.date.today() returns *)
  current_locale : string;       (* the LC_ALL setting of the process *)
  engine_trace : list engine_event
}.

Definition M (A : Type) : Type := world -> result A * world.

Definition ret {A} (a : A) : M A := fun w => (Ok a, w).

Definition bind {A B} (m : M A) (f : A -> M B) : M B :=
  fun w =>
    match m w with
    | (Ok a, w') => f a w'
    | (Raise e, w') => (Raise e, w')
    end.

Definition lift {A} (r : result A) : M A := fun w => (r, w).

Declare Scope M_scope.
Delimit Scope M_scope with M.
Notation "x <- m ;; k" := (bind m (fun x => k))
  (at level 61, m at next level, right associativity) : M_scope.
Notation "m ;;; k" := (bind m (fun _ => k))
  (at level 61, right associativity) : M_scope.

(** [[f(x) for x in l]] with a fallible [f]: left to right, stopping at the
    first exception. *)
Fixpoint mapM {A B} (f : A -> M B) (l : list A) : M (list B) :=
  match l with
  | [] => ret []
  | x :: l' => (y <- f x ;; ys <- mapM f l' ;; ret (y :: ys))%M
  end.

Definition log_event (e : engine_event) : M unit :=
  fun w =>
    (Ok tt, mkWorld (clock w) (current_locale w) (engine_trace w ++ [e])).

(** ** WeekdayTask *)

Record WeekdayTask : Type := mkWeekdayTask {
  start_time : value;
  end_time : value;
  variables : DeferredDict;
  weekday : string;
  week_offset : Z;
  locale : string
}.

(** [WeekdayTask.__init__]. *)
Definition WeekdayTask_init (weekday : string) (data parent_data : value)
    (week_offset : Z) (locale : string) : result WeekdayTask :=
  (st <- Py.get data "start_time" (VStr "00:00") ;;
   et <- Py.get data "end_time" (VStr "00:00") ;;
   vars <- Py.get data "variables" (VDict []) ;;
   pvars <- Py.getitem parent_data "variables" ;;
   Ok (mkWeekdayTask st et (mkDeferredDict vars pvars)
         weekday week_offset locale))%result.

(** [datetime.date.today()]. *)
Definition date_today : M Z := fun w => (Ok (clock w), w).

(** Lines 70-82 of [formatted_date]: the date of the task. *)
Definition task_date (self : WeekdayTask) : M Z :=
  (today <- date_today ;;
   delta <- lift (Date.timedelta_weeks (week_offset self)) ;;
   week <- lift (Date.add today delta) ;;
   back <- lift (Date.timedelta_days (Date.weekday week)) ;;
   first_day <- lift (Date.sub week back) ;;
   wd <- lift (Py.getitem_map WEEKDAY_MAP (weekday self)) ;;
   fwd <- lift (Date.timedelta_days wd) ;;
   lift (Date.add first_day fwd))%M.

(** [date_text[0].upper() + date_text[1:]]. *)
Definition capitalize_first (upper : text -> text) (date_text : text)
  : result text :=
  match date_text with
  | [] => Raise IndexError
  | c :: rest => Ok (upper [c] ++ rest)
  end.

(** ** The template engine

    jinja2 is outside the repository.  A compiled template is taken as a
    strategy over its bindings: it reads the plain attributes of the tasks
    and the shared variables directly; each read of a task's
    [formatted_date] is a step whose outcome (text or exception) it
    continues from; and, the engine being unsandboxed Python, it can read
    the locale of the process, as locale-aware formatting such as
    ['{:n}'.format(x)] does.  It ends with the rendered text or an
    exception of its own.  Other ambient sources a template can reach
    (the [random] filter, the address in the default [repr] of an object)
    are not represented. *)
Inductive tprog : Type :=
| TDone (out : result text)
| TFormattedDate (task : WeekdayTask) (k : result text -> tprog)
| TLocale (k : string -> tprog).

Definition template : Type := list WeekdayTask -> value -> tprog.

(** ** The host

    What the program takes from its environment: which locales are
    installed, the calendar names of each locale, the Unicode upper-casing
    of [str.upper], and the compiler of the template engine. *)
Record host : Type := mkHost {
  locale_installed : string -> bool;
  day_name : string -> Z -> text;             (* %A, Monday is 0 *)
  month_name : string -> Z -> text;           (* %B, January is 1 *)
  str_upper : text -> text;
  jinja2_Template : string -> result template (* jinja2.Template(source) *)
}.

Section Host.

Variable h : host.

(** [locale.setlocale(locale.LC_ALL, name)]. *)
Definition setlocale (name : string) : M unit :=
  fun w =>
    if locale_installed h name
    then (Ok tt, mkWorld (clock w) name (engine_trace w))
    else (Raise LocaleError, w).

(** [date.strftime("%A, %-d %B")] under a given locale. *)
Definition format_A_d_B (loc : string) (date : Z) : text :=
  day_name h loc (Date.weekday date) ++ text_of_string ", "
    ++ decimal (Date.day date) ++ text_of_string " "
    ++ month_name h loc (Date.month date).

(** [date.strftime("%A, %-d %B")]: reads the process locale. *)
Definition strftime (date : Z) : M text :=
  fun w => (Ok (format_A_d_B (current_locale w) date), w).

(** The [formatted_date] property. *)
Definition formatted_date (self : WeekdayTask) : M text :=
  (date <- task_date self ;;
   setlocale (locale self) ;;;
   date_text <- strftime date ;;
   lift (capitalize_first (str_upper h) date_text))%M.

(** Running a compiled template against the process. *)
Fixpoint run_tprog (p : tprog) : M text :=
  match p with
  | TDone out => lift out
  | TFormattedDate task k =>
      fun w =>
        let (r, w') := formatted_date task w in
        run_tprog (k r) w'
  | TLocale k => fun w => run_tprog (k (current_locale w)) w
  end.

(** [template_ob.render(week_tasks=..., variables=..., len=len)]. *)
Definition template_render (t : template) (week_tasks : list WeekdayTask)
    (vars : value) : M text :=
  (log_event EvRender ;;; run_tprog (t week_tasks vars))%M.

(** The list comprehension of [render_template]. *)
Definition make_week_tasks (tasks_descriptors : list (string * value))
    (data : value) (week_offset : Z) (locale : string)
  : M (list WeekdayTask) :=
  mapM (fun kv => lift (WeekdayTask_init (fst kv) (snd kv) data
                          week_offset locale))
       tasks_descriptors.

Definition render_template (template : string) (data : value)
    (locale : string) (week_offset : Z) : M text :=
  (tasks_descriptors <- lift (Py.getitem data "week_tasks") ;;
   its <- lift (Py.items tasks_descriptors) ;;
   week_tasks <- make_week_tasks its data week_offset locale ;;
   vars <- lift (Py.getitem data "variables") ;;
   log_event (EvTemplate template) ;;;
   template_ob <- lift (jinja2_Template h template) ;;
   template_render template_ob week_tasks vars)%M.

End Host.

(** ** Vocabulary of the statements *)

(** The anchor date: today shifted by [off] whole weeks. *)
Definition week_anchor (today off : Z) : Z := today + 7 * off.

(** The Monday of the week a date lies in. *)
Definition monday_of (d : Z) : Z := d - Date.weekday d.

(** A name is recognized when [WEEKDAY_MAP] binds it. *)
Definition recognized (name : string) : Prop :=
  exists n, Py.lookup name WEEKDAY_MAP = Some n.

Definition is_dict (v : value) : Prop := exists d, v = VDict d.

(** The tasks a list of [(weekday_name, descriptor)] pairs gives, one per
    pair and in the order of the pairs, or the first exception. *)
Fixpoint tasks_of_items (items : list (string * value)) (data : value)
    (off : Z) (loc : string) : result (list WeekdayTask) :=
  match items with
  | [] => Ok []
  | kv :: rest =>
      (t <- WeekdayTask_init (fst kv) (snd kv) data off loc ;;
       ts <- tasks_of_items rest data off loc ;;
       Ok (t :: ts))%result
  end.

(** A numeral that does not start with the digit 0. *)
Definition no_leading_zero (s : text) : Prop :=
  match s with
  | [] => False
  | c :: _ => c <> 48%N
  end.

(** A compiled template that never reads the locale of the process: what
    it prints depends on the process only through the [formatted_date] of
    tasks. *)
Inductive locale_blind : tprog -> Prop :=
| blind_done (out : result text) : locale_blind (TDone out)
| blind_date (task : WeekdayTask) (k : result text -> tprog) :
    (forall r, locale_blind (k r)) -> locale_blind (TFormattedDate task k).

(** Two states of the process on the same calendar day: the clocks agree;
    the locale setting and the trace may differ. *)
Definition same_day (w1 w2 : world) : Prop := clock w1 = clock w2.

(** Constructing a task and then reading its [formatted_date]. *)
Definition construct_and_read (fd : WeekdayTask -> M text)
    (name : string) (data parent_data : value) (off : Z) (loc : string)
  : M text :=
  (t <- lift (WeekdayTask_init name data parent_data off loc) ;; fd t)%M.

(** A small host used to run the model on concrete inputs: the C and en_US
    locales, English calendar names, ASCII upper-casing. *)
Module Example.

Definition locale_installed (name : string) : bool :=
  (String.eqb name "C" || String.eqb name "en_US.UTF-8"
   || String.eqb name "es_ES.UTF-8")%bool.

Definition day_name (loc : string) (wd : Z) : text :=
  if String.eqb loc "es_ES.UTF-8" then
    match wd with
    | 0 => text_of_string "lunes"
    | 1 => text_of_string "martes"
    | 2 => text_of_string "mi" ++ [233%N] ++ text_of_string "rcoles"
    | 3 => text_of_string "jueves"
    | 4 => text_of_string "viernes"
    | 5 => text_of_string "s" ++ [225%N] ++ text_of_string "bado"
    | _ => text_of_string "domingo"
    end
  else
    text_of_string
      (match wd with
       | 0 => "Monday" | 1 => "Tuesday" | 2 => "Wednesday"
       | 3 => "Thursday" | 4 => "Friday" | 5 => "Saturday"
       | _ => "Sunday"
       end).

Definition month_name (loc : string) (m : Z) : text :=
  text_of_string
    (if String.eqb loc "es_ES.UTF-8" then
       match m with
       | 1 => "enero" | 2 => "febrero" | 3 => "marzo" | 4 => "abril"
       | 5 => "mayo" | 6 => "junio" | 7 => "julio" | 8 => "agosto"
       | 9 => "septiembre" | 10 => "octubre" | 11 => "noviembre"
       | _ => "diciembre"
       end
     else
       match m with
       | 1 => "January" | 2 => "February" | 3 => "March" | 4 => "April"
       | 5 => "May" | 6 => "June" | 7 => "July" | 8 => "August"
       | 9 => "September" | 10 => "October" | 11 => "November"
       | _ => "December"
       end).

Definition upper_char (c : N) : N :=
  if ((97 <=? c) && (c <=? 122))%N then (c - 32)%N else c.

Definition str_upper (s : text) : text := map upper_char s.

(** A template printing the date of the first task. *)
Definition first_date_template (_ : string) : result template :=
  Ok (fun week_tasks _ =>
        match week_tasks with
        | [] => TDone (Ok [])
        | t :: _ => TFormattedDate t (fun r => TDone r)
        end).

(** Wednesday 4 November 2026, in the C locale. *)
Definition w0 : world := mkWorld 739924 "C" [].

Definition doc_week_tasks : list (string * value) :=
  [ ("monday"%string,
     VDict [ ("start_time"%string, VStr "09:00");
             ("variables"%string, VDict [("b"%string, VInt 2)]) ]);
    ("friday"%string, VDict []) ].

Definition doc_bindings : list (string * value) :=
  [ ("variables"%string, VDict [("a"%string, VInt 1)]);
    ("week_tasks"%string, VDict doc_week_tasks) ].

Definition doc : value := VDict doc_bindings.

Definition task (name : string) (off : Z) : WeekdayTask :=
  mkWeekdayTask (VStr "00:00") (VStr "00:00")
    (mkDeferredDict (VDict []) (VDict [])) name off "en_US.UTF-8".

Definition source : string := "{{ week_tasks[0].formatted_date }}".

Definition tarea (name : string) (off : Z) : WeekdayTask :=
  mkWeekdayTask (VStr "00:00") (VStr "00:00")
    (mkDeferredDict (VDict []) (VDict [])) name off "es_ES.UTF-8".

(** A template that prints a number with the [n] format of Python, which
    groups digits as the locale of the process says, and then the date of
    the first task. *)
Definition source_n : string :=
  "{{ '{:n}'.format(1234567) }} {{ week_tasks[0].formatted_date }}".

Definition format_n_1234567 (loc : string) : text :=
  text_of_string
    (if String.eqb loc "en_US.UTF-8" then "1,234,567"
     else if String.eqb loc "es_ES.UTF-8" then "1.234.567"
     else "1234567").

Definition number_and_date_template (_ : string) : result template :=
  Ok (fun week_tasks _ =>
        TLocale (fun loc =>
          match week_tasks with
          | [] => TDone (Ok (format_n_1234567 loc ++ text_of_string " "))
          | t :: _ =>
              TFormattedDate t (fun r =>
                TDone (s <- r ;;
                       Ok (format_n_1234567 loc ++ text_of_string " " ++ s))
                        %result)
          end)).

Definition host_n : host :=
  mkHost locale_installed day_name month_name str_upper
    number_and_date_template.

Definition host : host :=
  mkHost locale_installed day_name month_name str_upper first_date_template.

End Example.

(** * Properties *)

Lemma Ok_inj {A} (x y : A) : Ok x = Ok y -> x = y.
Proof. congruence. Qed.

(** ** Dates *)

(** The calendar functions on dates whose ordinals are known:
    0001-01-01 (a Monday), 2000-01-01, the leap day of 2024 and the day
    after, 2026-11-04 (a Wednesday), 9999-12-31 (a Friday). *)
Example ord2ymd_known :
  Date.ord2ymd 1 = (1, 1, 1) /\
  Date.ord2ymd 730120 = (2000, 1, 1) /\
  Date.ord2ymd 738945 = (2024, 2, 29) /\
  Date.ord2ymd 738946 = (2024, 3, 1) /\
  Date.ord2ymd 739924 = (2026, 11, 4) /\
  Date.ord2ymd Date.MAXORDINAL = (9999, 12, 31).
Proof. repeat split. Qed.

Example weekday_known :
  Date.weekday 1 = 0 /\ Date.weekday 739924 = 2 /\
  Date.weekday Date.MAXORDINAL = 4.
Proof. repeat split. Qed.

Lemma weekday_range d : 0 <= Date.weekday d <= 6.
Proof. unfold Date.weekday. pose proof (Z.mod_pos_bound (d + 6) 7). lia. Qed.

Lemma weekday_shift_weeks d k : Date.weekday (d + 7 * k) = Date.weekday d.
Proof.
  unfold Date.weekday.
  replace (d + 7 * k + 6) with (d + 6 + k * 7) by lia.
  apply Z.mod_add. lia.
Qed.

Lemma monday_of_le d : monday_of d <= d < monday_of d + 7.
Proof. unfold monday_of. pose proof (weekday_range d). lia. Qed.

Lemma monday_of_pos d : 1 <= d -> 1 <= monday_of d.
Proof.
  intros Hd. unfold monday_of, Date.weekday.
  replace (d + 6) with (d - 1 + 1 * 7) by lia.
  rewrite Z.mod_add by lia.
  pose proof (Z.mod_le (d - 1) 7). lia.
Qed.

Lemma monday_of_shift_weeks d k : monday_of (d + 7 * k) = monday_of d + 7 * k.
Proof. unfold monday_of. rewrite weekday_shift_weeks. lia. Qed.

Lemma WEEKDAY_MAP_range name n :
  Py.lookup name WEEKDAY_MAP = Some n -> 0 <= n <= 6.
Proof.
  unfold WEEKDAY_MAP. cbn [Py.lookup].
  repeat match goal with
         | |- context [String.eqb ?a name] => destruct (String.eqb a name)
         end;
    intros H; inversion H; subst; lia.
Qed.

Lemma recognized_names name :
  recognized name <->
  In name ["monday"; "tuesday"; "wednesday"; "thursday"; "friday";
           "saturday"; "sunday"]%string.
Proof.
  unfold recognized, WEEKDAY_MAP. split.
  - intros [n H]. cbn [Py.lookup] in H.
    repeat match type of H with
           | context [String.eqb ?a name] =>
               let E := fresh "E" in
               destruct (String.eqb a name) eqn:E;
               [apply String.eqb_eq in E; subst; simpl; auto 12 |]
           end.
    discriminate.
  - intros H. simpl in H.
    repeat (destruct H as [H | H]; [subst; vm_compute; eauto |]).
    destruct H.
Qed.

(** The three outcomes of the date computation, by what the clock, the
    offset and the weekday name are. *)
Lemma task_date_frame t w : snd (task_date t w) = w.
Proof.
  unfold task_date, bind, lift, date_today.
  repeat match goal with
         | |- context [match ?r with Ok _ => _ | Raise _ => _ end] =>
             destruct r
         end; reflexivity.
Qed.

Lemma task_date_Ok_inv t w date w' :
  task_date t w = (Ok date, w') ->
  exists n,
    Py.lookup (weekday t) WEEKDAY_MAP = Some n /\
    date = monday_of (week_anchor (clock w) (week_offset t)) + n /\
    Z.abs (7 * week_offset t) <= Date.MAXDELTA /\
    Date.valid (week_anchor (clock w) (week_offset t)) /\
    Date.valid date /\ w' = w.
Proof.
  unfold task_date, bind, lift, date_today, Date.sub, Date.timedelta_weeks,
    Date.timedelta_days, Date.add, rbind, Py.getitem_map,
    week_anchor, monday_of, Date.valid.
  cbv zeta.
  repeat match goal with
         | |- context [if ?b then _ else _] =>
             destruct b eqn:?; try discriminate
         | |- context [match Py.lookup ?k ?m with _ => _ end] =>
             destruct (Py.lookup k m) as [n |] eqn:?; try discriminate
         end.
  intros H. apply pair_equal_spec in H. destruct H as [Hr <-].
  apply Ok_inj in Hr. subst date. exists n.
  repeat match goal with
         | E : (_ && _)%bool = true |- _ =>
             apply andb_prop in E; destruct E
         | E : (_ <=? _) = true |- _ => apply Z.leb_le in E
         | E : (_ <? _) = true |- _ => apply Z.ltb_lt in E
         end.
  repeat split; try assumption; try lia.
Qed.

Lemma timedelta_days_Ok n :
  Z.abs n <= Date.MAXDELTA -> Date.timedelta_days n = Ok n.
Proof.
  intros H. unfold Date.timedelta_days.
  destruct (Z.leb_spec (Z.abs n) Date.MAXDELTA); [reflexivity | lia].
Qed.

Lemma date_add_Ok d delta :
  Date.valid (d + delta) -> Date.add d delta = Ok (d + delta).
Proof.
  intros [H1 H2]. unfold Date.add. cbv zeta.
  destruct (Z.ltb_spec 0 (d + delta)); [| lia].
  destruct (Z.leb_spec (d + delta) Date.MAXORDINAL); [reflexivity | lia].
Qed.

Lemma date_add_overflow d delta :
  ~ Date.valid (d + delta) -> Date.add d delta = Raise OverflowError.
Proof.
  intros H. unfold Date.add, Date.valid in *. cbv zeta.
  destruct (Z.ltb_spec 0 (d + delta)); [| reflexivity].
  destruct (Z.leb_spec (d + delta) Date.MAXORDINAL); [lia | reflexivity].
Qed.

Lemma date_sub_Ok d delta :
  Z.abs delta <= Date.MAXDELTA -> Date.valid (d - delta) ->
  Date.sub d delta = Ok (d - delta).
Proof.
  intros Hd Hv. unfold Date.sub.
  rewrite timedelta_days_Ok by lia. unfold rbind.
  rewrite date_add_Ok; [f_equal; lia |].
  replace (d + - delta) with (d - delta) by lia. assumption.
Qed.

Lemma task_date_reaches_lookup t w :
  Z.abs (7 * week_offset t) <= Date.MAXDELTA ->
  Date.valid (week_anchor (clock w) (week_offset t)) ->
  task_date t w =
    match Py.lookup (weekday t) WEEKDAY_MAP with
    | None => (Raise (KeyError (weekday t)), w)
    | Some n =>
        (Date.add (monday_of (week_anchor (clock w) (week_offset t))) n, w)
    end.
Proof.
  intros Hoff Hanchor.
  pose proof (monday_of_pos _ (proj1 Hanchor)) as Hpos.
  pose proof (monday_of_le (week_anchor (clock w) (week_offset t))) as Hle.
  pose proof (weekday_range (week_anchor (clock w) (week_offset t))) as Hwd.
  unfold task_date, bind, lift, date_today, Date.timedelta_weeks.
  rewrite timedelta_days_Ok by assumption.
  rewrite date_add_Ok by exact Hanchor.
  fold (week_anchor (clock w) (week_offset t)).
  rewrite timedelta_days_Ok by (unfold Date.MAXDELTA; lia).
  rewrite date_sub_Ok;
    [| unfold Date.MAXDELTA; lia
     | unfold monday_of, Date.valid in *; lia ].
  fold (monday_of (week_anchor (clock w) (week_offset t))).
  unfold Py.getitem_map.
  destruct (Py.lookup (weekday t) WEEKDAY_MAP) as [n |] eqn:Hn;
    [| reflexivity].
  apply WEEKDAY_MAP_range in Hn.
  rewrite timedelta_days_Ok by (unfold Date.MAXDELTA; lia).
  reflexivity.
Qed.

Lemma task_date_Ok_intro t w n :
  Py.lookup (weekday t) WEEKDAY_MAP = Some n ->
  Z.abs (7 * week_offset t) <= Date.MAXDELTA ->
  Date.valid (week_anchor (clock w) (week_offset t)) ->
  monday_of (week_anchor (clock w) (week_offset t)) + n <= Date.MAXORDINAL ->
  task_date t w =
    (Ok (monday_of (week_anchor (clock w) (week_offset t)) + n), w).
Proof.
  intros Hn Hoff Hanchor Hmax.
  rewrite task_date_reaches_lookup by assumption. rewrite Hn.
  pose proof (monday_of_pos _ (proj1 Hanchor)).
  pose proof (WEEKDAY_MAP_range _ _ Hn).
  rewrite date_add_Ok; [reflexivity |]. unfold Date.valid. lia.
Qed.

(** ** DeferredDict *)

(** C2. For mappings [p] (task-local) and [f] (document-level),
    [DeferredDict.__getitem__] returns [p[k]] when [k] is in [p], whatever
    [f] binds it to; returns [f[k]] when [k] is in [f] only; and raises
    [KeyError k] when [k] is in neither. *)
Theorem C2_deferred_lookup (k : string) (p f : list (string * value)) :
  (forall v, Py.lookup k p = Some v ->
     DeferredDict_getitem (mkDeferredDict (VDict p) (VDict f)) k = Ok v) /\
  (forall v, Py.lookup k p = None -> Py.lookup k f = Some v ->
     DeferredDict_getitem (mkDeferredDict (VDict p) (VDict f)) k = Ok v) /\
  (Py.lookup k p = None -> Py.lookup k f = None ->
     DeferredDict_getitem (mkDeferredDict (VDict p) (VDict f)) k
     = Raise (KeyError k)).
Proof.
  unfold DeferredDict_getitem, Py.contains, Py.getitem, rbind. simpl.
  repeat split.
  - intros v Hp. rewrite Hp. reflexivity.
  - intros v Hp Hf. rewrite Hp, Hf. reflexivity.
  - intros Hp Hf. rewrite Hp, Hf. reflexivity.
Qed.

(** The example of the specification: document variables [{"a": 1}], local
    variables [{"b": 2}]; and a local ["a"] shadowing the document's. *)
Lemma C2_deferred_lookup_witness :
  let doc_vars := [("a"%string, VInt 1)] in
  let local := [("b"%string, VInt 2)] in
  DeferredDict_getitem (mkDeferredDict (VDict local) (VDict doc_vars)) "a"
    = Ok (VInt 1) /\
  DeferredDict_getitem (mkDeferredDict (VDict local) (VDict doc_vars)) "b"
    = Ok (VInt 2) /\
  DeferredDict_getitem (mkDeferredDict (VDict local) (VDict doc_vars)) "c"
    = Raise (KeyError "c") /\
  DeferredDict_getitem
    (mkDeferredDict (VDict [("a"%string, VInt 7)]) (VDict doc_vars)) "a"
    = Ok (VInt 7).
Proof.
  cbv zeta. split; [| split; [| split]].
  - apply (proj1 (proj2 (C2_deferred_lookup "a" _ _))); reflexivity.
  - apply (proj1 (C2_deferred_lookup "b" _ _)); reflexivity.
  - apply (proj2 (proj2 (C2_deferred_lookup "c" _ _))); reflexivity.
  - apply (proj1 (C2_deferred_lookup "a" _ _)); reflexivity.
Defined.

(** ** WeekdayTask construction *)

Lemma WeekdayTask_init_dict name d p off loc :
  WeekdayTask_init name (VDict d) (VDict p) off loc =
    match Py.lookup "variables" p with
    | None => Raise (KeyError "variables")
    | Some pv =>
        Ok (mkWeekdayTask
              (match Py.lookup "start_time" d with
               | Some x => x | None => VStr "00:00" end)
              (match Py.lookup "end_time" d with
               | Some x => x | None => VStr "00:00" end)
              (mkDeferredDict
                 (match Py.lookup "variables" d with
                  | Some x => x | None => VDict [] end) pv)
              name off loc)
    end.
Proof.
  unfold WeekdayTask_init, Py.get, Py.getitem, rbind.
  destruct (Py.lookup "start_time" d), (Py.lookup "end_time" d),
    (Py.lookup "variables" d), (Py.lookup "variables" p); reflexivity.
Qed.

Lemma WeekdayTask_init_fields name data parent off loc t :
  WeekdayTask_init name data parent off loc = Ok t ->
  weekday t = name /\ week_offset t = off /\ locale t = loc.
Proof.
  unfold WeekdayTask_init, rbind.
  destruct (Py.get data "start_time" (VStr "00:00")); [| discriminate].
  destruct (Py.get data "end_time" (VStr "00:00")); [| discriminate].
  destruct (Py.get data "variables" (VDict [])); [| discriminate].
  destruct (Py.getitem parent "variables"); [| discriminate].
  intros H. apply Ok_inj in H. subst t. auto.
Qed.

(** C9. Whatever the weekday string, recognized or not, constructing a
    task from a descriptor mapping and a parent document that has a
    [variables] key succeeds; the name is stored as given and is not looked
    up in [WEEKDAY_MAP]. *)
Theorem C9_construction_succeeds (name : string)
    (d p : list (string * value)) (pv : value) (off : Z) (loc : string) :
  Py.lookup "variables" p = Some pv ->
  exists t,
    WeekdayTask_init name (VDict d) (VDict p) off loc = Ok t /\
    weekday t = name /\ week_offset t = off /\ locale t = loc /\
    dd_parent_data (variables t) = pv.
Proof.
  intros Hp. rewrite WeekdayTask_init_dict, Hp.
  eexists. split; [reflexivity |]. simpl. auto.
Qed.

Lemma C9_construction_succeeds_witness :
  ~ recognized "funday" /\
  exists t,
    WeekdayTask_init "funday" (VDict []) (VDict [("variables"%string, VNone)])
      0 "en_US" = Ok t /\
    weekday t = "funday"%string /\ week_offset t = 0 /\
    locale t = "en_US"%string /\ dd_parent_data (variables t) = VNone.
Proof.
  split.
  - intros [n H]. vm_compute in H. discriminate.
  - apply (C9_construction_succeeds "funday" [] _ VNone 0 "en_US").
    reflexivity.
Defined.

(** ** The date of a task *)

(** C1. When the weekday of the task is bound to [n] in [WEEKDAY_MAP], any
    date [formatted_date] computes is the anchor date (today plus
    [7 * week_offset] days) minus the anchor's weekday ordinal plus [n], and
    that date is computed whenever the anchor and the result are dates the
    calendar can represent.  For ["monday"]: with offset 0 it is today minus
    today's weekday ordinal, with offset 1 that date plus 7 days, with
    offset -1 that date minus 7 days. *)
Theorem C1_task_date_formula (t : WeekdayTask) (w : world) (n : Z) :
  Py.lookup (weekday t) WEEKDAY_MAP = Some n ->
  let anchor := clock w + 7 * week_offset t in
  (forall date w', task_date t w = (Ok date, w') ->
     date = anchor - Date.weekday anchor + n) /\
  (Z.abs (7 * week_offset t) <= Date.MAXDELTA -> Date.valid anchor ->
   anchor - Date.weekday anchor + n <= Date.MAXORDINAL ->
   task_date t w = (Ok (anchor - Date.weekday anchor + n), w)) /\
  (weekday t = "monday"%string -> Date.valid (clock w) ->
   (week_offset t = 0 ->
    task_date t w = (Ok (clock w - Date.weekday (clock w)), w)) /\
   (week_offset t = 1 -> Date.valid (clock w + 7) ->
    task_date t w = (Ok (clock w - Date.weekday (clock w) + 7), w)) /\
   (week_offset t = -1 -> Date.valid (clock w - 7) ->
    task_date t w = (Ok (clock w - Date.weekday (clock w) - 7), w))).
Proof.
  intros Hn anchor. split; [| split].
  - intros date w' H. apply task_date_Ok_inv in H.
    destruct H as (n' & Hn' & Hd & _). rewrite Hn in Hn'.
    injection Hn' as <-. exact Hd.
  - intros Hoff Hanchor Hmax.
    exact (task_date_Ok_intro t w n Hn Hoff Hanchor Hmax).
  - intros Hmon Htoday. rewrite Hmon in Hn. vm_compute in Hn.
    injection Hn as <-.
    assert (Hmap : Py.lookup (weekday t) WEEKDAY_MAP = Some 0)
      by (rewrite Hmon; reflexivity).
    pose proof (weekday_range (clock w)) as Hwd.
    pose proof (monday_of_pos _ (proj1 Htoday)) as Hpos.
    unfold monday_of in Hpos. unfold Date.valid, Date.MAXORDINAL in *.
    repeat split; intros Hoff.
    + rewrite (task_date_Ok_intro t w 0 Hmap); unfold week_anchor, monday_of;
        rewrite Hoff, ?Z.mul_0_r, ?Z.add_0_r;
        unfold Date.valid, Date.MAXDELTA, Date.MAXORDINAL; try lia.
      reflexivity.
    + intros Hv.
      rewrite (task_date_Ok_intro t w 0 Hmap); unfold week_anchor;
        rewrite ?monday_of_shift_weeks; unfold monday_of; rewrite Hoff;
        unfold Date.valid, Date.MAXDELTA, Date.MAXORDINAL; try lia.
      f_equal. f_equal. lia.
    + intros Hv.
      rewrite (task_date_Ok_intro t w 0 Hmap); unfold week_anchor;
        rewrite ?monday_of_shift_weeks; unfold monday_of; rewrite Hoff;
        unfold Date.valid, Date.MAXDELTA, Date.MAXORDINAL; try lia.
      f_equal. f_equal. lia.
Qed.

(** On Wednesday 4 November 2026 (ordinal 739924): Friday of the next week
    is ordinal 739933, and the Mondays of this, the next and the previous
    week are 739922, 739929 and 739915. *)
Lemma C1_task_date_formula_witness :
  task_date (Example.task "friday" 1) Example.w0 = (Ok 739933, Example.w0) /\
  task_date (Example.task "monday" 0) Example.w0 = (Ok 739922, Example.w0) /\
  task_date (Example.task "monday" 1) Example.w0 = (Ok 739929, Example.w0) /\
  task_date (Example.task "monday" (-1)) Example.w0
    = (Ok 739915, Example.w0).
Proof.
  split; [| split; [| split]].
  - refine (proj1 (proj2 (C1_task_date_formula
                            (Example.task "friday" 1) Example.w0 4 eq_refl))
              _ _ _).
    + vm_compute. discriminate.
    + split; vm_compute; discriminate.
    + vm_compute. discriminate.
  - refine (proj1 (proj2 (proj2 (C1_task_date_formula
                            (Example.task "monday" 0) Example.w0 0 eq_refl))
                    eq_refl _) eq_refl).
    split; vm_compute; discriminate.
  - refine (proj1 (proj2 (proj2 (proj2 (C1_task_date_formula
                            (Example.task "monday" 1) Example.w0 0 eq_refl))
                    eq_refl _)) eq_refl _);
      split; vm_compute; discriminate.
  - refine (proj2 (proj2 (proj2 (proj2 (C1_task_date_formula
                            (Example.task "monday" (-1)) Example.w0 0 eq_refl))
                    eq_refl _)) eq_refl _);
      split; vm_compute; discriminate.
Defined.

Lemma task_date_offset_overflow t w :
  Date.MAXDELTA < Z.abs (7 * week_offset t) ->
  task_date t w = (Raise OverflowError, w).
Proof.
  intros H. unfold task_date, bind, lift, date_today, Date.timedelta_weeks,
    Date.timedelta_days.
  destruct (Z.leb_spec (Z.abs (7 * week_offset t)) Date.MAXDELTA);
    [lia | reflexivity].
Qed.

(** C10. Two "today" dates of the same Monday-to-Sunday week give the same
    task date: any two dates computed are equal, and when both anchor dates
    are representable the two computations have the same outcome. *)
Theorem C10_same_week_same_date (t : WeekdayTask) (w1 w2 : world) :
  monday_of (clock w1) = monday_of (clock w2) ->
  (forall d1 d2 w1' w2',
     task_date t w1 = (Ok d1, w1') -> task_date t w2 = (Ok d2, w2') ->
     d1 = d2) /\
  (Date.valid (week_anchor (clock w1) (week_offset t)) ->
   Date.valid (week_anchor (clock w2) (week_offset t)) ->
   fst (task_date t w1) = fst (task_date t w2)).
Proof.
  intros Hweek.
  assert (Hmon : monday_of (week_anchor (clock w1) (week_offset t))
                 = monday_of (week_anchor (clock w2) (week_offset t))).
  { unfold week_anchor. rewrite !monday_of_shift_weeks. lia. }
  split.
  - intros d1 d2 w1' w2' H1 H2.
    apply task_date_Ok_inv in H1, H2.
    destruct H1 as (n1 & Hn1 & -> & _), H2 as (n2 & Hn2 & -> & _).
    rewrite Hn1 in Hn2. injection Hn2 as <-. lia.
  - intros Hv1 Hv2.
    destruct (Z.leb_spec (Z.abs (7 * week_offset t)) Date.MAXDELTA).
    + rewrite !task_date_reaches_lookup by assumption. rewrite Hmon.
      destruct (Py.lookup (weekday t) WEEKDAY_MAP); reflexivity.
    + rewrite !task_date_offset_overflow by assumption. reflexivity.
Qed.

(** Wednesday 4 and Sunday 8 November 2026 lie in the same week; the
    Tuesday of the week after is ordinal 739930 from both. *)
Lemma C10_same_week_same_date_witness :
  fst (task_date (Example.task "tuesday" 1) Example.w0)
  = fst (task_date (Example.task "tuesday" 1) (mkWorld 739928 "C" [])) /\
  fst (task_date (Example.task "tuesday" 1) Example.w0) = Ok 739930.
Proof.
  split; [| reflexivity].
  refine (proj2 (C10_same_week_same_date (Example.task "tuesday" 1)
                   Example.w0 (mkWorld 739928 "C" []) eq_refl) _ _);
    split; vm_compute; discriminate.
Defined.

(** ** Calendar fields and the day-of-month numeral *)

Lemma ord2ymd_bounds d :
  1 <= Date.month d <= 12 /\ 1 <= Date.day d <= 31.
Proof.
  unfold Date.month, Date.day, Date.ord2ymd. cbv zeta.
  set (n3 := ((d - 1) mod 146097 mod 36524) mod 1461).
  set (n100 := (d - 1) mod 146097 / 36524).
  set (n4 := (d - 1) mod 146097 mod 36524 / 1461).
  destruct ((n3 / 365 =? 4) || (n100 =? 4))%bool; [simpl; lia |].
  set (leap := ((n3 / 365 =? 3) && (negb (n4 =? 24) || (n100 =? 3)))%bool).
  clearbody leap.
  pose proof (Z.mod_pos_bound n3 365 ltac:(lia)) as Hn.
  set (n := n3 mod 365) in *. clearbody n.
  rewrite Z.shiftr_div_pow2 by lia. change (2 ^ 5) with 32.
  pose proof (Z.div_mod (n + 50) 32 ltac:(lia)) as Hdiv.
  pose proof (Z.mod_pos_bound (n + 50) 32 ltac:(lia)) as Hmod.
  set (m := (n + 50) / 32) in *. clearbody m.
  assert (Hm : m = 1 \/ m = 2 \/ m = 3 \/ m = 4 \/ m = 5 \/ m = 6 \/
               m = 7 \/ m = 8 \/ m = 9 \/ m = 10 \/ m = 11 \/ m = 12) by lia.
  repeat (destruct Hm as [Hm | Hm]); subst m; destruct leap;
    cbn [Date.DAYS_BEFORE_MONTH Date.b2z Z.ltb Z.compare Pos.compare
         Pos.compare_cont andb];
    match goal with
    | |- context [n <? ?p] => destruct (Z.ltb_spec n p)
    end;
    cbn; lia.
Qed.

Lemma decimal_day z :
  1 <= z <= 31 ->
  decimal z =
    (if z <? 10 then [Z.to_N (48 + z)]
     else [Z.to_N (48 + z / 10); Z.to_N (48 + z mod 10)]) /\
  no_leading_zero (decimal z).
Proof.
  intros H.
  assert (Hz : exists k, z = Z.of_nat k /\ (1 <= k <= 31)%nat)
    by (exists (Z.to_nat z); lia).
  destruct Hz as (k & -> & Hk).
  do 32 (destruct k as [| k];
         [first [lia | split; [reflexivity | vm_compute; discriminate]] |]).
  lia.
Qed.

(** ** formatted_date *)

Section HostProperties.

Variable h : host.

Lemma format_A_d_B_nonempty loc date :
  exists c rest, format_A_d_B h loc date = c :: rest.
Proof.
  unfold format_A_d_B.
  destruct (day_name h loc (Date.weekday date)) as [| c rest].
  - change (text_of_string ", ") with [44%N; 32%N]. simpl. eauto.
  - simpl. eauto.
Qed.

(** The outcomes of [formatted_date], by the outcome of the date
    computation and whether the locale is installed. *)
Lemma formatted_date_unfold t w :
  formatted_date h t w =
    match task_date t w with
    | (Ok date, _) =>
        if locale_installed h (locale t)
        then (capitalize_first (str_upper h)
                (format_A_d_B h (locale t) date),
              mkWorld (clock w) (locale t) (engine_trace w))
        else (Raise LocaleError, w)
    | (Raise e, _) => (Raise e, w)
    end.
Proof.
  unfold formatted_date, bind.
  pose proof (task_date_frame t w) as Hf.
  destruct (task_date t w) as [[date | e] w1]; simpl in Hf; subst w1;
    [| reflexivity].
  unfold setlocale. destruct (locale_installed h (locale t)); reflexivity.
Qed.

Lemma capitalize_first_format loc date :
  exists c rest,
    format_A_d_B h loc date = c :: rest /\
    capitalize_first (str_upper h) (format_A_d_B h loc date)
    = Ok (str_upper h [c] ++ rest).
Proof.
  destruct (format_A_d_B_nonempty loc date) as (c & rest & H).
  exists c, rest. rewrite H. auto.
Qed.

(** With a recognized weekday the date computation can only overflow. *)
Lemma task_date_recognized_error t w n e w' :
  Py.lookup (weekday t) WEEKDAY_MAP = Some n ->
  task_date t w = (Raise e, w') -> e = OverflowError.
Proof.
  intros Hn.
  unfold task_date, bind, lift, date_today, Date.sub, Date.timedelta_weeks,
    Date.timedelta_days, Date.add, rbind, Py.getitem_map.
  cbv zeta. rewrite Hn.
  repeat match goal with
         | |- context [if ?b then _ else _] => destruct b
         end;
    intros H; apply pair_equal_spec in H; destruct H as [H _];
    congruence.
Qed.

(** Construction raises only these. *)
Lemma WeekdayTask_init_error name data parent off loc e :
  WeekdayTask_init name data parent off loc = Raise e ->
  e = AttributeError \/ e = TypeError \/ e = KeyError "variables".
Proof.
  unfold WeekdayTask_init, Py.get, Py.getitem, rbind.
  destruct data; try (intros H; injection H as <-; auto; fail).
  destruct (Py.lookup "start_time" d), (Py.lookup "end_time" d),
    (Py.lookup "variables" d);
    destruct parent as [| | | | | p];
    try (intros H; injection H as <-; auto; fail);
    destruct (Py.lookup "variables" p);
    intros H; try discriminate; injection H as <-; auto.
Qed.

Lemma recognized_not_variables name :
  recognized name -> name <> "variables"%string.
Proof.
  intros H ->. apply recognized_names in H. simpl in H.
  repeat (destruct H as [H | H]; [discriminate |]). exact H.
Qed.

(** C3 (as amended). For a recognized weekday name, constructing a task
    and reading [formatted_date] never raises the [KeyError] of that name.
    For any other name, once the task is constructed and today shifted by
    [week_offset] weeks is a representable date, reading [formatted_date]
    raises the [KeyError] of that name and leaves the process untouched. *)
Theorem C3_unknown_weekday (name : string) (data parent : value)
    (off : Z) (loc : string) (w : world) :
  (recognized name ->
   fst (construct_and_read (formatted_date h) name data parent off loc w)
   <> Raise (KeyError name)) /\
  (~ recognized name ->
   forall t, WeekdayTask_init name data parent off loc = Ok t ->
   Z.abs (7 * off) <= Date.MAXDELTA ->
   Date.valid (week_anchor (clock w) off) ->
   formatted_date h t w = (Raise (KeyError name), w) /\
   construct_and_read (formatted_date h) name data parent off loc w
   = (Raise (KeyError name), w)).
Proof.
  split.
  - intros Hrec. unfold construct_and_read, bind, lift.
    destruct (WeekdayTask_init name data parent off loc) as [t | e] eqn:Hi.
    + apply WeekdayTask_init_fields in Hi. destruct Hi as (Hname & _).
      rewrite formatted_date_unfold.
      destruct (task_date t w) as [[date | e] w1] eqn:Ht.
      * destruct (locale_installed h (locale t)); [| simpl; discriminate].
        destruct (capitalize_first_format (locale t) date)
          as (c & rest & _ & ->).
        simpl. discriminate.
      * destruct Hrec as [n Hn]. rewrite <- Hname in Hn.
        rewrite (task_date_recognized_error _ _ _ _ _ Hn Ht).
        simpl. discriminate.
    + simpl. intros H. injection H as ->.
      apply WeekdayTask_init_error in Hi.
      pose proof (recognized_not_variables _ Hrec).
      destruct Hi as [Hi | [Hi | Hi]]; congruence.
  - intros Hnot t Hi Hoff Hanchor.
    assert (Hfd : formatted_date h t w = (Raise (KeyError name), w)).
    { pose proof (WeekdayTask_init_fields _ _ _ _ _ _ Hi)
        as (Hname & Hoff' & _).
      rewrite formatted_date_unfold, task_date_reaches_lookup
        by (rewrite Hoff'; assumption).
      rewrite Hname.
      destruct (Py.lookup name WEEKDAY_MAP) as [n |] eqn:Hn;
        [exfalso; apply Hnot; exists n; exact Hn | reflexivity]. }
    split; [exact Hfd |].
    unfold construct_and_read, bind, lift. rewrite Hi. exact Hfd.
Qed.

(** C7. When [formatted_date] returns a string, that string is the text
    "<weekday name>, <day of month> <month name>" of the task's date in
    the task's locale, the day of the month printed without a leading
    zero, with its first character upper-cased by [str.upper] and the
    characters after the first unchanged. *)
Theorem C7_formatted_text (t : WeekdayTask) (w w' : world) (s : text) :
  formatted_date h t w = (Ok s, w') ->
  exists date c rest,
    task_date t w = (Ok date, w) /\
    day_name h (locale t) (Date.weekday date) ++ text_of_string ", "
      ++ decimal (Date.day date) ++ text_of_string " "
      ++ month_name h (locale t) (Date.month date) = c :: rest /\
    s = str_upper h [c] ++ rest /\
    0 <= Date.weekday date <= 6 /\
    1 <= Date.month date <= 12 /\
    1 <= Date.day date <= 31 /\
    decimal (Date.day date) =
      (if Date.day date <? 10 then [Z.to_N (48 + Date.day date)]
       else [Z.to_N (48 + Date.day date / 10);
             Z.to_N (48 + Date.day date mod 10)]) /\
    no_leading_zero (decimal (Date.day date)).
Proof.
  rewrite formatted_date_unfold.
  pose proof (task_date_frame t w) as Hf.
  destruct (task_date t w) as [[date | e] w1]; simpl in Hf; subst w1;
    [| discriminate].
  destruct (locale_installed h (locale t)); [| discriminate].
  destruct (capitalize_first_format (locale t) date)
    as (c & rest & Hfmt & ->).
  intros H. apply pair_equal_spec in H. destruct H as [H _].
  apply Ok_inj in H. subst s.
  exists date, c, rest.
  pose proof (ord2ymd_bounds date) as [Hm Hd].
  repeat split; try (apply weekday_range); try lia.
  - exact Hfmt.
  - apply decimal_day. exact Hd.
  - apply decimal_day. exact Hd.
Qed.

(** *** Effects on the process *)

Lemma task_date_same_day t w1 w2 :
  same_day w1 w2 -> fst (task_date t w1) = fst (task_date t w2).
Proof.
  unfold same_day, task_date, bind, lift, date_today. intros ->.
  repeat match goal with
         | |- context [match ?r with Ok _ => _ | Raise _ => _ end] =>
             destruct r
         end; reflexivity.
Qed.

Lemma formatted_date_clock t w : clock (snd (formatted_date h t w)) = clock w.
Proof.
  rewrite formatted_date_unfold.
  destruct (task_date t w) as [[date | e] w1]; [| reflexivity].
  destruct (locale_installed h (locale t)); reflexivity.
Qed.

Lemma formatted_date_same_day t w1 w2 :
  same_day w1 w2 -> fst (formatted_date h t w1) = fst (formatted_date h t w2).
Proof.
  intros H. rewrite !formatted_date_unfold.
  pose proof (task_date_same_day t w1 w2 H) as Hd.
  destruct (task_date t w1) as [[d1 | e1] u1],
           (task_date t w2) as [[d2 | e2] u2];
    simpl in Hd; try discriminate.
  - apply Ok_inj in Hd. subst d2.
    destruct (locale_installed h (locale t)); reflexivity.
  - simpl. congruence.
Qed.

(** A failed read leaves the process as it was. *)
Lemma formatted_date_Raise_frame t w e w' :
  formatted_date h t w = (Raise e, w') -> w' = w.
Proof.
  rewrite formatted_date_unfold.
  destruct (task_date t w) as [[date | e1] w1].
  - destruct (locale_installed h (locale t)).
    + destruct (capitalize_first_format (locale t) date)
        as (c & rest & _ & ->).
      discriminate.
    + intros H. apply pair_equal_spec in H. destruct H as [_ <-]. auto.
  - intros H. apply pair_equal_spec in H. destruct H as [_ <-]. auto.
Qed.

Lemma run_clock p : forall w, clock (snd (run_tprog h p w)) = clock w.
Proof.
  induction p as [out | task k IH | k IH]; intros w.
  - reflexivity.
  - simpl. pose proof (formatted_date_clock task w) as Hc.
    destruct (formatted_date h task w) as [r u]. simpl in Hc.
    rewrite IH. exact Hc.
  - simpl. apply IH.
Qed.

Lemma run_same_day p :
  locale_blind p ->
  forall w1 w2, same_day w1 w2 ->
    fst (run_tprog h p w1) = fst (run_tprog h p w2).
Proof.
  induction 1 as [out | task k _ IH]; intros w1 w2 Hsame.
  - reflexivity.
  - simpl.
    pose proof (formatted_date_same_day task w1 w2 Hsame) as Hr.
    pose proof (formatted_date_clock task w1) as Hc1.
    pose proof (formatted_date_clock task w2) as Hc2.
    destruct (formatted_date h task w1) as [r1 u1],
             (formatted_date h task w2) as [r2 u2].
    simpl in Hr, Hc1, Hc2. subst r2.
    apply IH. unfold same_day in *. congruence.
Qed.

Lemma make_week_tasks_eq items data off loc w :
  make_week_tasks items data off loc w
  = (tasks_of_items items data off loc, w).
Proof.
  unfold make_week_tasks. revert w.
  induction items as [| kv rest IH]; intros w; [reflexivity |].
  cbn [mapM tasks_of_items]. unfold bind at 1. unfold lift at 1.
  destruct (WeekdayTask_init (fst kv) (snd kv) data off loc) as [t | e];
    [| reflexivity].
  unfold bind at 1. rewrite IH. simpl.
  destruct (tasks_of_items rest data off loc); reflexivity.
Qed.

(** [render_template], step by step. *)
Lemma render_unfold tpl data loc off w :
  render_template h tpl data loc off w =
    match Py.getitem data "week_tasks" with
    | Raise e => (Raise e, w)
    | Ok td =>
        match Py.items td with
        | Raise e => (Raise e, w)
        | Ok its =>
            match tasks_of_items its data off loc with
            | Raise e => (Raise e, w)
            | Ok tasks =>
                match Py.getitem data "variables" with
                | Raise e => (Raise e, w)
                | Ok vars =>
                    match jinja2_Template h tpl with
                    | Raise e =>
                        (Raise e,
                         mkWorld (clock w) (current_locale w)
                           (engine_trace w ++ [EvTemplate tpl]))
                    | Ok tmpl =>
                        run_tprog h (tmpl tasks vars)
                          (mkWorld (clock w) (current_locale w)
                             ((engine_trace w ++ [EvTemplate tpl])
                                ++ [EvRender]))
                    end
                end
            end
        end
    end.
Proof.
  unfold render_template, bind, lift.
  destruct (Py.getitem data "week_tasks") as [td | e]; [| reflexivity].
  destruct (Py.items td) as [its | e]; [| reflexivity].
  rewrite make_week_tasks_eq.
  destruct (tasks_of_items its data off loc) as [tasks | e];
    [| reflexivity].
  destruct (Py.getitem data "variables") as [vars | e]; [| reflexivity].
  unfold log_event. cbn [clock current_locale engine_trace].
  destruct (jinja2_Template h tpl) as [tmpl | e]; [| reflexivity].
  unfold template_render, bind, log_event.
  cbn [clock current_locale engine_trace]. reflexivity.
Qed.

Lemma render_clock tpl data loc off w :
  clock (snd (render_template h tpl data loc off w)) = clock w.
Proof.
  rewrite render_unfold.
  destruct (Py.getitem data "week_tasks") as [td | e]; [| reflexivity].
  destruct (Py.items td) as [its | e]; [| reflexivity].
  destruct (tasks_of_items its data off loc) as [tasks | e];
    [| reflexivity].
  destruct (Py.getitem data "variables") as [vars | e]; [| reflexivity].
  destruct (jinja2_Template h tpl) as [tmpl | e]; [| reflexivity].
  rewrite run_clock. reflexivity.
Qed.

(** C8. A successful read of [formatted_date] leaves the process locale
    set to the locale of the task, whatever it was before, and changes
    neither the clock nor the trace of engine calls; a whole render
    leaves the clock as it was. *)
Theorem C8_locale_effect :
  (forall t w s w',
     formatted_date h t w = (Ok s, w') ->
     current_locale w' = locale t /\
     (current_locale w <> locale t -> current_locale w' <> current_locale w) /\
     clock w' = clock w /\ engine_trace w' = engine_trace w) /\
  (forall tpl data loc off w,
     clock (snd (render_template h tpl data loc off w)) = clock w).
Proof.
  split.
  - intros t w s w'. rewrite formatted_date_unfold.
    destruct (task_date t w) as [[date | e] w1]; [| discriminate].
    destruct (locale_installed h (locale t)); [| discriminate].
    intros H. apply pair_equal_spec in H. destruct H as [_ <-].
    cbn [current_locale clock engine_trace]. auto.
  - apply render_clock.
Qed.

(** *** The renderer *)

Lemma tasks_of_items_Forall2 items data off loc :
  forall tasks,
    tasks_of_items items data off loc = Ok tasks ->
    Forall2 (fun kv t =>
               WeekdayTask_init (fst kv) (snd kv) data off loc = Ok t)
            items tasks /\
    map weekday tasks = map fst items.
Proof.
  induction items as [| kv rest IH]; intros tasks; cbn [tasks_of_items].
  - intros H. apply Ok_inj in H. subst tasks. split; constructor.
  - unfold rbind.
    destruct (WeekdayTask_init (fst kv) (snd kv) data off loc)
      as [t | e] eqn:Hi; [| discriminate].
    destruct (tasks_of_items rest data off loc) as [ts | e];
      [| discriminate].
    intros H. apply Ok_inj in H. subst tasks.
    destruct (IH ts eq_refl) as [HF Hmap].
    split; [constructor; assumption |].
    apply WeekdayTask_init_fields in Hi. destruct Hi as (Hname & _).
    simpl. rewrite Hname, Hmap. reflexivity.
Qed.

Lemma tasks_of_items_total d vars items off loc :
  Py.lookup "variables" d = Some vars ->
  Forall (fun kv => is_dict (snd kv)) items ->
  exists tasks,
    tasks_of_items items (VDict d) off loc = Ok tasks /\
    List.length tasks = List.length items.
Proof.
  intros Hv HF. induction HF as [| kv rest [dk Hk] _ IH].
  - exists []. auto.
  - destruct IH as (ts & Hts & Hlen). cbn [tasks_of_items].
    rewrite Hk, WeekdayTask_init_dict, Hv, Hts. unfold rbind.
    eexists. split; [reflexivity |]. simpl. congruence.
Qed.

(** C4. A document without the key [week_tasks] makes [render_template]
    raise [KeyError "week_tasks"] with the process untouched: no call to
    the template engine is in the trace.  A document without the key
    [variables], whose [week_tasks] is a mapping and whose first
    descriptor, if there is one, is a mapping, makes it raise
    [KeyError "variables"], again before any call to the engine. *)
Theorem C4_missing_field (tpl : string) (d : list (string * value))
    (loc : string) (off : Z) (w : world) :
  (Py.lookup "week_tasks" d = None ->
   render_template h tpl (VDict d) loc off w
   = (Raise (KeyError "week_tasks"), w)) /\
  (Py.lookup "variables" d = None ->
   forall items,
     Py.lookup "week_tasks" d = Some (VDict items) ->
     match items with
     | [] => True
     | kv :: _ => is_dict (snd kv)
     end ->
     render_template h tpl (VDict d) loc off w
     = (Raise (KeyError "variables"), w)).
Proof.
  split.
  - intros H. rewrite render_unfold. unfold Py.getitem. rewrite H.
    reflexivity.
  - intros Hv items Hw Hfirst. rewrite render_unfold.
    unfold Py.getitem. rewrite Hw, Hv. cbn [Py.items].
    destruct items as [| kv rest]; [reflexivity |].
    destruct Hfirst as [dk Hk]. cbn [tasks_of_items].
    rewrite Hk, WeekdayTask_init_dict, Hv. reflexivity.
Qed.

(** C6. The list comprehension of [render_template] builds one task per
    [(weekday_name, descriptor)] pair of [week_tasks], in the order of the
    pairs: the i-th task is the one constructed from the i-th pair and
    carries its weekday name.  It does build them when the document has
    [variables] and every descriptor is a mapping, and it is that list the
    template receives as [week_tasks]. *)
Theorem C6_tasks_in_order (tpl : string) (d items : list (string * value))
    (loc : string) (off : Z) (w : world) :
  Py.lookup "week_tasks" d = Some (VDict items) ->
  (forall tasks w',
     make_week_tasks items (VDict d) off loc w = (Ok tasks, w') ->
     Forall2 (fun kv t =>
                WeekdayTask_init (fst kv) (snd kv) (VDict d) off loc = Ok t)
             items tasks /\
     map weekday tasks = map fst items) /\
  (forall vars,
     Py.lookup "variables" d = Some vars ->
     Forall (fun kv => is_dict (snd kv)) items ->
     exists tasks,
       make_week_tasks items (VDict d) off loc w = (Ok tasks, w) /\
       List.length tasks = List.length items /\
       forall tmpl,
         jinja2_Template h tpl = Ok tmpl ->
         render_template h tpl (VDict d) loc off w =
           run_tprog h (tmpl tasks vars)
             (mkWorld (clock w) (current_locale w)
                (engine_trace w ++ [EvTemplate tpl; EvRender]))).
Proof.
  intros Hw. split.
  - intros tasks w'. rewrite make_week_tasks_eq. intros H.
    apply pair_equal_spec in H. destruct H as [H _].
    apply tasks_of_items_Forall2. exact H.
  - intros vars Hv HF.
    destruct (tasks_of_items_total d vars items off loc Hv HF)
      as (tasks & Hts & Hlen).
    exists tasks. rewrite make_week_tasks_eq, Hts.
    split; [reflexivity |]. split; [exact Hlen |].
    intros tmpl Ht. rewrite render_unfold. unfold Py.getitem.
    rewrite Hw, Hv. cbn [Py.items]. rewrite Hts, Ht.
    rewrite <- app_assoc. reflexivity.
Qed.

(** C5 (as amended). For a template that does not itself read the locale
    of the process, the text (or exception) a render produces depends on
    the process only through the clock: two renders of the same template,
    document, locale and offset on the same day give the same result,
    whatever the locale setting was before each; in particular a second
    render that follows the first gives the result of the first. *)
Theorem C5_render_deterministic (tpl : string) (data : value)
    (loc : string) (off : Z) :
  (forall tmpl tasks vars,
     jinja2_Template h tpl = Ok tmpl -> locale_blind (tmpl tasks vars)) ->
  (forall w1 w2,
     same_day w1 w2 ->
     fst (render_template h tpl data loc off w1)
     = fst (render_template h tpl data loc off w2)) /\
  (forall w,
     fst (render_template h tpl data loc off
            (snd (render_template h tpl data loc off w)))
     = fst (render_template h tpl data loc off w)).
Proof.
  intros Hblind.
  assert (H : forall w1 w2, same_day w1 w2 ->
              fst (render_template h tpl data loc off w1)
              = fst (render_template h tpl data loc off w2)).
  { intros w1 w2 Hsame. rewrite !render_unfold.
    destruct (Py.getitem data "week_tasks") as [td | e]; [| reflexivity].
    destruct (Py.items td) as [its | e]; [| reflexivity].
    destruct (tasks_of_items its data off loc) as [tasks | e];
      [| reflexivity].
    destruct (Py.getitem data "variables") as [vars | e]; [| reflexivity].
    destruct (jinja2_Template h tpl) as [tmpl | e] eqn:Ht; [| reflexivity].
    apply run_same_day; [apply (Hblind tmpl); reflexivity | exact Hsame]. }
  split; [exact H |].
  intros w. apply H. unfold same_day. apply render_clock.
Qed.

End HostProperties.

(** ** The properties on a concrete host *)

(** On Wednesday 4 November 2026: a task for ["sunday"] does not raise
    [KeyError "sunday"], and a task for ["funday"] with offset 0 raises
    [KeyError "funday"]. *)
Lemma C3_unknown_weekday_witness :
  fst (construct_and_read (formatted_date Example.host) "sunday" (VDict [])
         Example.doc 0 "en_US.UTF-8" Example.w0)
  <> Raise (KeyError "sunday") /\
  construct_and_read (formatted_date Example.host) "funday" (VDict [])
    Example.doc 0 "en_US.UTF-8" Example.w0
  = (Raise (KeyError "funday"), Example.w0).
Proof.
  split.
  - apply (proj1 (C3_unknown_weekday Example.host
                    "sunday" (VDict []) Example.doc 0 "en_US.UTF-8"
                    Example.w0)).
    exists 6. reflexivity.
  - refine (proj2 (proj2 (C3_unknown_weekday Example.host
                    "funday" (VDict []) Example.doc 0 "en_US.UTF-8"
                    Example.w0) _ _ eq_refl _ _)).
    + intros [n H]. vm_compute in H. discriminate.
    + vm_compute. discriminate.
    + split; vm_compute; discriminate.
Defined.

(** On Wednesday 4 November 2026, a task for the unrecognized ["funday"]
    with a week offset of one million weeks is constructed, and reading its
    [formatted_date] raises [OverflowError], not [KeyError "funday"]: the
    week shift comes before the lookup in [WEEKDAY_MAP]. *)
Lemma C3_unknown_weekday_counterexample :
  ~ recognized "funday" /\
  (exists t,
     WeekdayTask_init "funday" (VDict []) Example.doc 1000000 "en_US.UTF-8"
     = Ok t /\
     formatted_date Example.host t Example.w0
     = (Raise OverflowError, Example.w0)) /\
  fst (construct_and_read (formatted_date Example.host) "funday" (VDict [])
         Example.doc 1000000 "en_US.UTF-8" Example.w0)
  <> Raise (KeyError "funday").
Proof.
  split; [| split].
  - intros [n H]. vm_compute in H. discriminate.
  - eexists. split; reflexivity.
  - vm_compute. discriminate.
Qed.

(** Friday of the week after 4 November 2026, in Spanish: the locale gives
    "viernes, 13 noviembre" and the property returns it capitalized. *)
Lemma C7_formatted_text_witness :
  formatted_date Example.host (Example.tarea "friday" 1) Example.w0
  = (Ok (text_of_string "Viernes, 13 noviembre"),
     mkWorld 739924 "es_ES.UTF-8" []) /\
  exists date c rest,
    task_date (Example.tarea "friday" 1) Example.w0 = (Ok date, Example.w0) /\
    Example.day_name "es_ES.UTF-8" (Date.weekday date) ++ text_of_string ", "
      ++ decimal (Date.day date) ++ text_of_string " "
      ++ Example.month_name "es_ES.UTF-8" (Date.month date) = c :: rest /\
    text_of_string "Viernes, 13 noviembre" = Example.str_upper [c] ++ rest /\
    0 <= Date.weekday date <= 6 /\
    1 <= Date.month date <= 12 /\
    1 <= Date.day date <= 31 /\
    decimal (Date.day date) =
      (if Date.day date <? 10 then [Z.to_N (48 + Date.day date)]
       else [Z.to_N (48 + Date.day date / 10);
             Z.to_N (48 + Date.day date mod 10)]) /\
    no_leading_zero (decimal (Date.day date)).
Proof.
  split; [reflexivity |].
  exact (C7_formatted_text Example.host
           (Example.tarea "friday" 1) Example.w0
           (mkWorld 739924 "es_ES.UTF-8" [])
           (text_of_string "Viernes, 13 noviembre") eq_refl).
Defined.

(** Reading a Spanish task's date in a process whose locale is C leaves the
    locale at es_ES.UTF-8; the clock still reads 4 November 2026. *)
Lemma C8_locale_effect_witness :
  (current_locale
     (snd (formatted_date Example.host (Example.tarea "friday" 1) Example.w0))
   = "es_ES.UTF-8"%string /\
   (current_locale Example.w0 <> "es_ES.UTF-8"%string ->
    current_locale
      (snd (formatted_date Example.host (Example.tarea "friday" 1)
              Example.w0))
    <> current_locale Example.w0) /\
   clock
     (snd (formatted_date Example.host (Example.tarea "friday" 1) Example.w0))
   = 739924 /\
   engine_trace
     (snd (formatted_date Example.host (Example.tarea "friday" 1) Example.w0))
   = []) /\
  current_locale Example.w0 = "C"%string /\
  clock (snd (render_template Example.host Example.source Example.doc
                "es_ES.UTF-8" 0 Example.w0)) = 739924.
Proof.
  split; [| split; [reflexivity |]].
  - apply (proj1 (C8_locale_effect Example.host)
             (Example.tarea "friday" 1) Example.w0
             (text_of_string "Viernes, 13 noviembre")
             (snd (formatted_date Example.host (Example.tarea "friday" 1)
                     Example.w0))).
    reflexivity.
  - exact (proj2 (C8_locale_effect Example.host)
             Example.source Example.doc "es_ES.UTF-8"%string 0 Example.w0).
Defined.

(** A document with only [variables], and one with only [week_tasks]. *)
Lemma C4_missing_field_witness :
  render_template Example.host Example.source
    (VDict [("variables"%string, VDict [])]) "en_US.UTF-8" 0 Example.w0
  = (Raise (KeyError "week_tasks"), Example.w0) /\
  render_template Example.host Example.source
    (VDict [("week_tasks"%string, VDict [("monday"%string, VDict [])])])
    "en_US.UTF-8" 0 Example.w0
  = (Raise (KeyError "variables"), Example.w0).
Proof.
  split.
  - exact (proj1 (C4_missing_field Example.host Example.source
                    [("variables"%string, VDict [])]
                    "en_US.UTF-8"%string 0 Example.w0)
             eq_refl).
  - exact (proj2 (C4_missing_field Example.host Example.source
                    [("week_tasks"%string,
                      VDict [("monday"%string, VDict [])])]
                    "en_US.UTF-8"%string 0 Example.w0)
             eq_refl [("monday"%string, VDict [])] eq_refl
             (ex_intro _ [] eq_refl)).
Defined.

(** The example document has tasks for monday and friday, in that order. *)
Lemma C6_tasks_in_order_witness :
  exists tasks,
    make_week_tasks Example.doc_week_tasks Example.doc 0 "en_US.UTF-8"
      Example.w0 = (Ok tasks, Example.w0) /\
    List.length tasks = 2%nat /\
    map weekday tasks = ["monday"; "friday"]%string /\
    render_template Example.host Example.source Example.doc "en_US.UTF-8" 0
      Example.w0
    = (Ok (text_of_string "Monday, 2 November"),
       mkWorld 739924 "en_US.UTF-8"
         [EvTemplate Example.source; EvRender]).
Proof.
  pose proof (C6_tasks_in_order Example.host Example.source
                Example.doc_bindings Example.doc_week_tasks
                "en_US.UTF-8"%string 0 Example.w0 eq_refl) as [Hone Hall].
  destruct (Hall (VDict [("a"%string, VInt 1)]) eq_refl)
    as (tasks & H1 & H2 & _).
  { repeat constructor; eexists; reflexivity. }
  exists tasks. split; [exact H1 |]. split; [exact H2 |].
  split; [exact (proj2 (Hone tasks Example.w0 H1)) | reflexivity].
Defined.

(** Two renders on 4 November 2026, the second in a process whose locale
    was left at es_ES.UTF-8 by earlier work, print the same text: the
    template reads nothing but the date of the first task. *)
Lemma C5_render_deterministic_witness :
  fst (render_template Example.host Example.source Example.doc "en_US.UTF-8" 0
         Example.w0)
  = fst (render_template Example.host Example.source Example.doc "en_US.UTF-8" 0
           (mkWorld 739924 "es_ES.UTF-8" [EvRender])) /\
  fst (render_template Example.host Example.source Example.doc "en_US.UTF-8" 0
         Example.w0)
  = Ok (text_of_string "Monday, 2 November").
Proof.
  split; [| reflexivity].
  refine (proj1 (C5_render_deterministic Example.host Example.source
                   Example.doc "en_US.UTF-8"%string 0 _)
            Example.w0 (mkWorld 739924 "es_ES.UTF-8" [EvRender]) eq_refl).
  intros tmpl tasks vars H. apply Ok_inj in H. subst tmpl.
  destruct tasks as [| t rest]; repeat constructor.
Defined.

(** A template that prints a number with the [n] format before the date of
    the first task.  The first render, in a process still in the C locale,
    prints "1234567 Monday, 2 November" and leaves the locale at
    en_US.UTF-8; the second render of the same template, document, locale
    and offset, on the same day, prints "1,234,567 Monday, 2 November". *)
Lemma C5_render_deterministic_counterexample :
  fst (render_template Example.host_n Example.source_n Example.doc
         "en_US.UTF-8" 0 Example.w0)
  = Ok (text_of_string "1234567 Monday, 2 November") /\
  same_day
    (snd (render_template Example.host_n Example.source_n Example.doc
            "en_US.UTF-8" 0 Example.w0))
    Example.w0 /\
  fst (render_template Example.host_n Example.source_n Example.doc
         "en_US.UTF-8" 0
         (snd (render_template Example.host_n Example.source_n Example.doc
                 "en_US.UTF-8" 0 Example.w0)))
  = Ok (text_of_string "1,234,567 Monday, 2 November") /\
  fst (render_template Example.host_n Example.source_n Example.doc
         "en_US.UTF-8" 0
         (snd (render_template Example.host_n Example.source_n Example.doc
                 "en_US.UTF-8" 0 Example.w0)))
  <> fst (render_template Example.host_n Example.source_n Example.doc
            "en_US.UTF-8" 0 Example.w0).
Proof.
  split; [reflexivity |]. split; [reflexivity |]. split; [reflexivity |].
  vm_compute. discriminate.
Qed.

(** * Further properties of the code *)

(** ** DeferredDict.__getitem__ *)

Lemma lookup_app {A} (k : string) (p f : list (string * A)) :
  Py.lookup k (p ++ f) =
    match Py.lookup k p with
    | Some v => Some v
    | None => Py.lookup k f
    end.
Proof.
  induction p as [| [k' v'] p IH]; [reflexivity |].
  simpl. destruct (String.eqb k' k); [reflexivity | exact IH].
Qed.

(** X1. Looking a key up through a [DeferredDict] over two mappings is
    looking it up in the single dict that lists the local bindings before
    the document's: same value, same [KeyError]. *)
Theorem X1_getitem_is_lookup_in_chain (k : string)
    (p f : list (string * value)) :
  DeferredDict_getitem (mkDeferredDict (VDict p) (VDict f)) k
  = Py.getitem (VDict (p ++ f)) k.
Proof.
  unfold DeferredDict_getitem, Py.contains, Py.getitem, rbind. simpl.
  rewrite lookup_app.
  destruct (Py.lookup k p); reflexivity.
Qed.

(** X2. Whatever the two wrapped values are, mappings or not, a value
    [__getitem__] returns is the one a wrapped mapping binds to the key:
    the local one, or the parent's when the local value does not contain
    the key; and the only exceptions it raises are [KeyError] of that key
    and [TypeError]. *)
Theorem X2_getitem_sound (self : DeferredDict) (k : string) :
  (forall v, DeferredDict_getitem self k = Ok v ->
     (exists p, dd_data self = VDict p /\ Py.lookup k p = Some v) \/
     (exists f, dd_parent_data self = VDict f /\ Py.lookup k f = Some v /\
                Py.contains k (dd_data self) = Ok false)) /\
  (forall e, DeferredDict_getitem self k = Raise e ->
     e = KeyError k \/ e = TypeError).
Proof.
  destruct self as [data parent].
  unfold DeferredDict_getitem, rbind. cbn [dd_data dd_parent_data].
  destruct (Py.contains k data) as [[|] |] eqn:Hc.
  - (* the key is in the local value: only a dict can be indexed by it *)
    destruct data as [| | | | | p]; cbn [Py.getitem];
      try (split; [discriminate | intros e H; injection H as <-; auto]).
    destruct (Py.lookup k p) as [x |] eqn:Hp.
    + split; [| discriminate].
      intros v H. apply Ok_inj in H. subst x. left. eauto.
    + split; [discriminate |]. intros e H. injection H as <-. auto.
  - (* the key is not there: the parent decides *)
    destruct parent as [| | | | | f]; cbn [Py.getitem];
      try (split; [discriminate | intros e H; injection H as <-; auto]).
    destruct (Py.lookup k f) as [x |] eqn:Hf.
    + split; [| discriminate].
      intros v H. apply Ok_inj in H. subst x. right. eauto.
    + split; [discriminate |]. intros e H. injection H as <-. auto.
  - (* membership itself failed *)
    split; [discriminate |]. intros e' H. injection H as <-.
    destruct data; cbn [Py.contains] in Hc; try discriminate;
      injection Hc as <-; auto.
Qed.

(** A task whose local [variables] is a list: a key outside the list is
    resolved in the document. *)
Lemma X2_getitem_sound_witness :
  (exists p, VList [VStr "x"] = VDict p
             /\ Py.lookup "a" p = Some (VInt 1)) \/
  (exists f, VDict [("a"%string, VInt 1)] = VDict f
             /\ Py.lookup "a" f = Some (VInt 1)
             /\ Py.contains "a" (VList [VStr "x"]) = Ok false).
Proof.
  exact (proj1 (X2_getitem_sound
                  (mkDeferredDict (VList [VStr "x"])
                     (VDict [("a"%string, VInt 1)])) "a")
           (VInt 1) eq_refl).
Defined.

(** X3. When the local value is not a mapping the fallback is not a plain
    fallback.  A scalar ([None], a boolean, a number: what YAML gives for
    an empty or scalar [variables]) makes every lookup raise [TypeError],
    even for keys the document binds.  A string makes a key that is one of
    its substrings raise [TypeError], and a list does so for a key that is
    one of its elements; every other key is resolved in the parent. *)
Theorem X3_getitem_local_not_a_mapping (parent : value) (k : string) :
  DeferredDict_getitem (mkDeferredDict VNone parent) k = Raise TypeError /\
  (forall b, DeferredDict_getitem (mkDeferredDict (VBool b) parent) k
             = Raise TypeError) /\
  (forall z, DeferredDict_getitem (mkDeferredDict (VInt z) parent) k
             = Raise TypeError) /\
  (forall s,
     DeferredDict_getitem (mkDeferredDict (VStr s) parent) k =
       if Py.is_substring k s then Raise TypeError
       else Py.getitem parent k) /\
  (forall l,
     DeferredDict_getitem (mkDeferredDict (VList l) parent) k =
       if existsb (Py.is_str k) l then Raise TypeError
       else Py.getitem parent k).
Proof.
  unfold DeferredDict_getitem, rbind.
  cbn [dd_data dd_parent_data Py.contains Py.getitem].
  repeat split; intros; reflexivity.
Qed.

(** X4. When the parent value is not a mapping (a document whose
    [variables] is empty or a scalar), a key bound locally is still
    answered, without looking at the parent; every other key raises
    [TypeError], not [KeyError]. *)
Theorem X4_getitem_parent_not_a_mapping (p : list (string * value))
    (parent : value) (k : string) :
  (forall v, Py.lookup k p = Some v ->
     DeferredDict_getitem (mkDeferredDict (VDict p) parent) k = Ok v) /\
  (Py.lookup k p = None -> ~ is_dict parent ->
   DeferredDict_getitem (mkDeferredDict (VDict p) parent) k
   = Raise TypeError).
Proof.
  unfold DeferredDict_getitem, rbind.
  cbn [dd_data dd_parent_data Py.contains].
  split.
  - intros v Hp. cbn [Py.getitem]. rewrite Hp. reflexivity.
  - intros Hp Hparent. rewrite Hp.
    destruct parent; try reflexivity.
    exfalso. apply Hparent. eexists. reflexivity.
Qed.

Lemma X4_getitem_parent_not_a_mapping_witness :
  DeferredDict_getitem
    (mkDeferredDict (VDict [("b"%string, VInt 2)]) VNone) "b"
  = Ok (VInt 2) /\
  DeferredDict_getitem
    (mkDeferredDict (VDict [("b"%string, VInt 2)]) VNone) "a"
  = Raise TypeError.
Proof.
  split.
  - exact (proj1 (X4_getitem_parent_not_a_mapping
                    [("b"%string, VInt 2)] VNone "b") (VInt 2) eq_refl).
  - apply (proj2 (X4_getitem_parent_not_a_mapping
                    [("b"%string, VInt 2)] VNone "a") eq_refl).
    intros [d H]. discriminate.
Defined.

(** ** WeekdayTask.__init__ *)

(** X5. What construction does with each shape of input: a descriptor that
    is not a mapping raises [AttributeError] whatever the parent is; a
    mapping descriptor under a parent that is not a mapping raises
    [TypeError]; under a parent mapping without [variables] it raises
    [KeyError "variables"]; and these are the only ways it fails. *)
Theorem X5_init_outcomes (name : string) (data parent : value) (off : Z)
    (loc : string) :
  (~ is_dict data ->
   WeekdayTask_init name data parent off loc = Raise AttributeError) /\
  (is_dict data -> ~ is_dict parent ->
   WeekdayTask_init name data parent off loc = Raise TypeError) /\
  (is_dict data ->
   forall p, parent = VDict p -> Py.lookup "variables" p = None ->
   WeekdayTask_init name data parent off loc
   = Raise (KeyError "variables")) /\
  (is_dict data ->
   forall p pv, parent = VDict p -> Py.lookup "variables" p = Some pv ->
   exists t, WeekdayTask_init name data parent off loc = Ok t).
Proof.
  split; [| split; [| split]].
  - intros Hd. unfold WeekdayTask_init, rbind.
    destruct data; try reflexivity. exfalso. apply Hd. eexists. reflexivity.
  - intros [d ->] Hp. unfold WeekdayTask_init, Py.get, Py.getitem, rbind.
    destruct (Py.lookup "start_time" d), (Py.lookup "end_time" d),
      (Py.lookup "variables" d);
      destruct parent; try reflexivity;
      exfalso; apply Hp; eexists; reflexivity.
  - intros [d ->] p -> Hv. rewrite WeekdayTask_init_dict, Hv. reflexivity.
  - intros [d ->] p pv -> Hv. rewrite WeekdayTask_init_dict, Hv.
    eexists. reflexivity.
Qed.

(** A descriptor left empty in the YAML file ([None]) under a document
    that has no [variables] either: [AttributeError] comes first. *)
Lemma X5_init_outcomes_witness :
  WeekdayTask_init "monday" VNone (VDict []) 0 "en_US" = Raise AttributeError
  /\ WeekdayTask_init "monday" (VDict []) (VList []) 0 "en_US"
     = Raise TypeError
  /\ WeekdayTask_init "monday" (VDict []) (VDict []) 0 "en_US"
     = Raise (KeyError "variables").
Proof.
  split; [| split].
  - apply (proj1 (X5_init_outcomes "monday" VNone (VDict []) 0 "en_US")).
    intros [d H]. discriminate.
  - apply (proj1 (proj2 (X5_init_outcomes "monday" (VDict []) (VList [])
                           0 "en_US"))).
    + exists []. reflexivity.
    + intros [d H]. discriminate.
  - apply (proj1 (proj2 (proj2 (X5_init_outcomes "monday" (VDict [])
                                  (VDict []) 0 "en_US")))
             (ex_intro _ [] eq_refl) [] eq_refl eq_refl).
Defined.

(** X6. Variable inheritance, end to end: for a task constructed from a
    descriptor mapping under a document whose [variables] is a mapping,
    [task.variables[k]] is the lookup of [k] in the descriptor's own
    [variables] followed by the document's; a descriptor without a
    [variables] key sees exactly the document's variables. *)
Theorem X6_task_variables_inherit (name : string)
    (d p dv : list (string * value)) (off : Z) (loc : string)
    (t : WeekdayTask) (k : string) :
  WeekdayTask_init name (VDict d) (VDict p) off loc = Ok t ->
  Py.lookup "variables" p = Some (VDict dv) ->
  (Py.lookup "variables" d = None ->
   DeferredDict_getitem (variables t) k = Py.getitem (VDict dv) k) /\
  (forall lv, Py.lookup "variables" d = Some (VDict lv) ->
   DeferredDict_getitem (variables t) k = Py.getitem (VDict (lv ++ dv)) k).
Proof.
  intros Hi Hp. rewrite WeekdayTask_init_dict, Hp in Hi.
  apply Ok_inj in Hi. subst t. cbn [variables].
  split.
  - intros Hd. rewrite Hd.
    unfold DeferredDict_getitem, rbind.
    cbn [dd_data dd_parent_data Py.contains Py.lookup]. reflexivity.
  - intros lv Hd. rewrite Hd.
    unfold DeferredDict_getitem, Py.contains, Py.getitem, rbind.
    cbn [dd_data dd_parent_data]. rewrite lookup_app.
    destruct (Py.lookup k lv); reflexivity.
Qed.

(** The monday task of the example document: its own [b], the document's
    [a], and no [c]. *)
Lemma X6_task_variables_inherit_witness :
  exists t,
    WeekdayTask_init "monday"
      (VDict [ ("start_time"%string, VStr "09:00");
               ("variables"%string, VDict [("b"%string, VInt 2)]) ])
      Example.doc 0 "en_US.UTF-8" = Ok t /\
    DeferredDict_getitem (variables t) "a" = Ok (VInt 1) /\
    DeferredDict_getitem (variables t) "b" = Ok (VInt 2) /\
    DeferredDict_getitem (variables t) "c" = Raise (KeyError "c").
Proof.
  eexists. split; [reflexivity |].
  pose proof (fun k =>
    proj2 (X6_task_variables_inherit "monday"
             [ ("start_time"%string, VStr "09:00");
               ("variables"%string, VDict [("b"%string, VInt 2)]) ]
             Example.doc_bindings [("a"%string, VInt 1)]
             0 "en_US.UTF-8" _ k eq_refl eq_refl)
      [("b"%string, VInt 2)] eq_refl) as H.
  split; [| split]; rewrite H; reflexivity.
Defined.

(** ** formatted_date: the date *)

Lemma weekday_monday_plus a n :
  0 <= n <= 6 ->
  Date.weekday (monday_of a + n) = n /\
  monday_of (monday_of a + n) = monday_of a.
Proof.
  intros Hn.
  assert (Hw : Date.weekday (monday_of a + n) = n).
  { unfold monday_of, Date.weekday.
    pose proof (Z.div_mod (a + 6) 7 ltac:(lia)) as Hdm.
    replace (a - (a + 6) mod 7 + n + 6) with (n + (a + 6) / 7 * 7) by lia.
    rewrite Z.mod_add by lia. apply Z.mod_small. lia. }
  split; [exact Hw |].
  unfold monday_of at 1. rewrite Hw. lia.
Qed.

(** X7. The date computed for a task falls on the weekday the task names:
    its [weekday()] is the ordinal [WEEKDAY_MAP] gives the name, and it lies
    in the Monday-to-Sunday week of the anchor date, today shifted by
    [week_offset] weeks. *)
Theorem X7_date_falls_on_weekday (t : WeekdayTask) (w w' : world)
    (n date : Z) :
  Py.lookup (weekday t) WEEKDAY_MAP = Some n ->
  task_date t w = (Ok date, w') ->
  Date.weekday date = n /\
  monday_of date = monday_of (week_anchor (clock w) (week_offset t)) /\
  monday_of date <= date <= monday_of date + 6.
Proof.
  intros Hn H. apply task_date_Ok_inv in H.
  destruct H as (n' & Hn' & -> & _). rewrite Hn in Hn'.
  injection Hn' as <-.
  pose proof (WEEKDAY_MAP_range _ _ Hn) as Hr.
  destruct (weekday_monday_plus
              (week_anchor (clock w) (week_offset t)) n Hr) as [Hw Hm].
  rewrite Hw, Hm. repeat split; lia.
Qed.

(** Read on Wednesday 4 November 2026 with offset 1, the friday task gets
    Friday 13 November, in the week of Monday 9 November. *)
Lemma X7_date_falls_on_weekday_witness :
  Date.weekday 739933 = 4 /\
  monday_of 739933 = monday_of (week_anchor 739924 1) /\
  monday_of 739933 <= 739933 <= monday_of 739933 + 6.
Proof.
  exact (X7_date_falls_on_weekday (Example.task "friday" 1) Example.w0
           Example.w0 4 739933 eq_refl eq_refl).
Defined.

(** X8. Read on the same day, the dates of two tasks differ by seven days
    per week of difference in their offsets plus the difference of their
    weekday ordinals: one more week of offset is exactly seven days later,
    and the tasks of one week are consecutive days in the order of
    [WEEKDAY_MAP]. *)
Theorem X8_date_difference (t1 t2 : WeekdayTask) (w w1 w2 : world)
    (n1 n2 d1 d2 : Z) :
  Py.lookup (weekday t1) WEEKDAY_MAP = Some n1 ->
  Py.lookup (weekday t2) WEEKDAY_MAP = Some n2 ->
  task_date t1 w = (Ok d1, w1) ->
  task_date t2 w = (Ok d2, w2) ->
  d2 - d1 = 7 * (week_offset t2 - week_offset t1) + (n2 - n1).
Proof.
  intros Hn1 Hn2 H1 H2.
  apply task_date_Ok_inv in H1, H2.
  destruct H1 as (m1 & Hm1 & -> & _), H2 as (m2 & Hm2 & -> & _).
  rewrite Hn1 in Hm1. rewrite Hn2 in Hm2.
  injection Hm1 as <-. injection Hm2 as <-.
  unfold week_anchor. rewrite !monday_of_shift_weeks. lia.
Qed.

(** Tuesday of next week is 16 days after Sunday two weeks ago. *)
Lemma X8_date_difference_witness :
  739930 - 739914 = 7 * (1 - (-2)) + (1 - 6).
Proof.
  exact (X8_date_difference (Example.task "sunday" (-2))
           (Example.task "tuesday" 1) Example.w0 Example.w0 Example.w0
           6 1 739914 739930 eq_refl eq_refl eq_refl eq_refl).
Defined.

Lemma task_date_error t w e w' :
  task_date t w = (Raise e, w') ->
  e = OverflowError \/ e = KeyError (weekday t).
Proof.
  unfold task_date, bind, lift, date_today, Date.sub, Date.timedelta_weeks,
    Date.timedelta_days, Date.add, rbind, Py.getitem_map.
  cbv zeta.
  destruct (Py.lookup (weekday t) WEEKDAY_MAP);
    repeat match goal with
           | |- context [if ?b then _ else _] => destruct b
           end;
    intros H; apply pair_equal_spec in H; destruct H as [H _];
    try discriminate; injection H as <-; auto.
Qed.

Section HostExtras.

Variable h : host.

(** ** formatted_date: exceptions and the locale *)

(** X9. A read of [formatted_date] that raises leaves the process as it
    was, locale included, and raises one of three exceptions:
    [OverflowError] from the date arithmetic, [KeyError] of the task's
    weekday name, or the locale error.  Indexing the first character of
    the formatted text never fails. *)
Theorem X9_formatted_date_exceptions (t : WeekdayTask) (w w' : world)
    (e : exn) :
  formatted_date h t w = (Raise e, w') ->
  w' = w /\
  (e = OverflowError \/ e = KeyError (weekday t) \/ e = LocaleError).
Proof.
  rewrite formatted_date_unfold.
  destruct (task_date t w) as [[date | e1] w1] eqn:Ht.
  - destruct (locale_installed h (locale t)).
    + destruct (capitalize_first_format h (locale t) date)
        as (c & rest & _ & ->).
      discriminate.
    + intros H. apply pair_equal_spec in H. destruct H as [H <-].
      injection H as <-. auto.
  - intros H. apply pair_equal_spec in H. destruct H as [H <-].
    injection H as <-. apply task_date_error in Ht.
    destruct Ht; auto.
Qed.

(** X10. The locale error is raised exactly when the date of the task is
    computed and the task's locale is not installed; an unrecognized
    weekday or an overflow is reported first. *)
Theorem X10_locale_error_iff (t : WeekdayTask) (w : world) :
  formatted_date h t w = (Raise LocaleError, w) <->
  (exists date, task_date t w = (Ok date, w)) /\
  locale_installed h (locale t) = false.
Proof.
  rewrite formatted_date_unfold.
  pose proof (task_date_frame t w) as Hf.
  destruct (task_date t w) as [[date | e1] w1] eqn:Ht;
    simpl in Hf; subst w1.
  - destruct (locale_installed h (locale t)).
    + destruct (capitalize_first_format h (locale t) date)
        as (c & rest & _ & ->).
      split; [discriminate | intros [_ H]; discriminate].
    + split; [eauto | reflexivity].
  - split.
    + intros H. apply pair_equal_spec in H. destruct H as [H _].
      injection H as ->. apply task_date_error in Ht.
      destruct Ht; discriminate.
    + intros [[date H] _]. discriminate.
Qed.

(** X11. When the weekday is recognized, the offset and the dates are in
    the range of the calendar and the locale is installed, the read
    succeeds: it returns a non-empty text and leaves the process with the
    task's locale and nothing else changed. *)
Theorem X11_formatted_date_succeeds (t : WeekdayTask) (w : world) (n : Z) :
  Py.lookup (weekday t) WEEKDAY_MAP = Some n ->
  Z.abs (7 * week_offset t) <= Date.MAXDELTA ->
  Date.valid (week_anchor (clock w) (week_offset t)) ->
  monday_of (week_anchor (clock w) (week_offset t)) + n <= Date.MAXORDINAL ->
  locale_installed h (locale t) = true ->
  exists s,
    formatted_date h t w
    = (Ok s, mkWorld (clock w) (locale t) (engine_trace w)) /\
    s <> [].
Proof.
  intros Hn Hoff Hanchor Hmax Hloc.
  rewrite formatted_date_unfold,
    (task_date_Ok_intro t w n Hn Hoff Hanchor Hmax), Hloc.
  destruct (capitalize_first_format h (locale t)
              (monday_of (week_anchor (clock w) (week_offset t)) + n))
    as (c & rest & Hfmt & ->).
  eexists. split; [reflexivity |].
  intros H. apply app_eq_nil in H. destruct H as [_ H].
  subst rest.
  (* the text holds the separator ", ", so more than one character *)
  unfold format_A_d_B in Hfmt.
  apply (f_equal (@List.length N)) in Hfmt.
  rewrite !length_app in Hfmt.
  change (List.length (text_of_string ", ")) with 2%nat in Hfmt.
  simpl in Hfmt. lia.
Qed.

(** X12. Reading [formatted_date] again right after a read gives the same
    outcome and the same process state: the property is recomputed, and the
    second computation changes nothing. *)
Theorem X12_formatted_date_idempotent (t : WeekdayTask) (w : world) :
  formatted_date h t (snd (formatted_date h t w)) = formatted_date h t w.
Proof.
  destruct (formatted_date h t w) as [[s | e] w'] eqn:H1.
  - cbn [snd]. rewrite formatted_date_unfold in H1.
    pose proof (task_date_frame t w) as Hf.
    destruct (task_date t w) as [[date | e1] w1] eqn:Ht;
      simpl in Hf; subst w1; [| discriminate].
    destruct (locale_installed h (locale t)) eqn:Hloc; [| discriminate].
    apply pair_equal_spec in H1. destruct H1 as [Hs <-].
    rewrite formatted_date_unfold.
    pose proof (task_date_same_day t w
                  (mkWorld (clock w) (locale t) (engine_trace w)) eq_refl)
      as Hd.
    pose proof (task_date_frame t
                  (mkWorld (clock w) (locale t) (engine_trace w))) as Hf'.
    rewrite Ht in Hd.
    destruct (task_date t (mkWorld (clock w) (locale t) (engine_trace w)))
      as [[date' | e'] w1']; simpl in Hd, Hf'; subst w1';
      [| discriminate].
    apply Ok_inj in Hd. subst date'. rewrite Hloc, Hs. reflexivity.
  - cbn [snd]. pose proof (formatted_date_Raise_frame h _ _ _ _ H1).
    subst w'. exact H1.
Qed.

(** X13. Reads of different tasks do not disturb one another: the outcome
    of reading one task's [formatted_date] is the same whether or not
    another task, of whatever locale, was read just before; after two
    successful reads the process locale is the one of the task read last. *)
Theorem X13_reads_do_not_interfere (tA tB : WeekdayTask) (w : world) :
  fst (formatted_date h tB (snd (formatted_date h tA w)))
  = fst (formatted_date h tB w) /\
  (forall sA sB wA wB,
     formatted_date h tA w = (Ok sA, wA) ->
     formatted_date h tB wA = (Ok sB, wB) ->
     current_locale wB = locale tB /\ clock wB = clock w).
Proof.
  split.
  - apply formatted_date_same_day. unfold same_day.
    apply formatted_date_clock.
  - intros sA sB wA wB HA HB.
    pose proof (formatted_date_clock h tA w) as HcA.
    pose proof (formatted_date_clock h tB wA) as HcB.
    rewrite HA in HcA. rewrite HB in HcB. cbn [snd] in HcA, HcB.
    split; [| congruence].
    rewrite formatted_date_unfold in HB.
    destruct (task_date tB wA) as [[date | e] w1]; [| discriminate].
    destruct (locale_installed h (locale tB)); [| discriminate].
    apply pair_equal_spec in HB. destruct HB as [_ <-]. reflexivity.
Qed.

(** ** render_template: malformed documents *)

Lemma WeekdayTask_init_parent name data parent off loc t :
  WeekdayTask_init name data parent off loc = Ok t ->
  Py.getitem parent "variables" = Ok (dd_parent_data (variables t)).
Proof.
  unfold WeekdayTask_init, rbind.
  destruct (Py.get data "start_time" (VStr "00:00")); [| discriminate].
  destruct (Py.get data "end_time" (VStr "00:00")); [| discriminate].
  destruct (Py.get data "variables" (VDict [])); [| discriminate].
  destruct (Py.getitem parent "variables"); [| discriminate].
  intros H. apply Ok_inj in H. subst t. reflexivity.
Qed.

Lemma tasks_of_items_params items data off loc :
  forall tasks,
    tasks_of_items items data off loc = Ok tasks ->
    Forall (fun t =>
              week_offset t = off /\ locale t = loc /\
              Py.getitem data "variables"
              = Ok (dd_parent_data (variables t)))
           tasks.
Proof.
  intros tasks H. apply tasks_of_items_Forall2 in H. destruct H as [HF _].
  induction HF as [| kv t items tasks Hi _ IH]; constructor; [| exact IH].
  pose proof (WeekdayTask_init_fields _ _ _ _ _ _ Hi) as (_ & Ho & Hl).
  pose proof (WeekdayTask_init_parent _ _ _ _ _ _ Hi). auto.
Qed.

Lemma tasks_of_items_not_a_mapping d vars items off loc :
  Py.lookup "variables" d = Some vars ->
  Exists (fun kv => ~ is_dict (snd kv)) items ->
  tasks_of_items items (VDict d) off loc = Raise AttributeError.
Proof.
  intros Hv. induction items as [| [k v] rest IH]; intros HE.
  - inversion HE.
  - cbn [tasks_of_items fst snd].
    destruct v as [| b | z | s | l | dk];
      try reflexivity.
    rewrite WeekdayTask_init_dict, Hv. unfold rbind.
    rewrite IH; [reflexivity |].
    inversion HE as [? ? Hhead | ? ? Htail]; subst; [| exact Htail].
    exfalso. apply Hhead. eexists. reflexivity.
Qed.

(** X14. In a document that has [variables], a weekday whose descriptor is
    not a mapping (an entry left empty in the YAML file, a string, a list)
    makes the render raise [AttributeError], wherever the entry stands
    among the week's tasks, with the process untouched: the template is
    not even compiled. *)
Theorem X14_descriptor_not_a_mapping (tpl : string)
    (d items : list (string * value)) (vars : value) (loc : string)
    (off : Z) (w : world) :
  Py.lookup "week_tasks" d = Some (VDict items) ->
  Py.lookup "variables" d = Some vars ->
  Exists (fun kv => ~ is_dict (snd kv)) items ->
  render_template h tpl (VDict d) loc off w = (Raise AttributeError, w).
Proof.
  intros Hw Hv HE. rewrite render_unfold. unfold Py.getitem.
  rewrite Hw. cbn [Py.items].
  rewrite (tasks_of_items_not_a_mapping d vars items off loc Hv HE).
  reflexivity.
Qed.

(** X15. A document that is not a mapping at the top level makes the
    render raise [TypeError], and a [week_tasks] that is not a mapping
    makes it raise [AttributeError], whether or not [variables] is there;
    in both cases nothing else has happened. *)
Theorem X15_document_not_a_mapping (tpl : string) (data : value)
    (loc : string) (off : Z) (w : world) :
  (~ is_dict data ->
   render_template h tpl data loc off w = (Raise TypeError, w)) /\
  (forall d v, data = VDict d ->
   Py.lookup "week_tasks" d = Some v -> ~ is_dict v ->
   render_template h tpl data loc off w = (Raise AttributeError, w)).
Proof.
  split.
  - intros Hd. rewrite render_unfold.
    destruct data; try reflexivity.
    exfalso. apply Hd. eexists. reflexivity.
  - intros d v -> Hw Hv. rewrite render_unfold. unfold Py.getitem.
    rewrite Hw.
    destruct v; try reflexivity.
    exfalso. apply Hv. eexists. reflexivity.
Qed.

(** ** render_template: the tasks and the template *)

(** X16. Every task a render builds carries the week offset and the locale
    the render was called with, and falls back to the very [variables]
    value of the document: the tasks differ only in their weekday and in
    what their descriptors say. *)
Theorem X16_tasks_share_parameters (items : list (string * value))
    (data : value) (off : Z) (loc : string) (w w' : world)
    (tasks : list WeekdayTask) :
  make_week_tasks items data off loc w = (Ok tasks, w') ->
  Forall (fun t =>
            week_offset t = off /\ locale t = loc /\
            Py.getitem data "variables"
            = Ok (dd_parent_data (variables t)))
         tasks.
Proof.
  rewrite make_week_tasks_eq. intros H.
  apply pair_equal_spec in H. destruct H as [H _].
  exact (tasks_of_items_params items data off loc tasks H).
Qed.

(** X17. When the template does not compile, the render fails and the
    process locale is what it was: no date has been formatted.  If the
    document is well formed, the failure is the compiler's exception; a
    malformed document is reported first. *)
Theorem X17_template_does_not_compile (tpl : string) (data : value)
    (loc : string) (off : Z) (w : world) (e : exn) :
  jinja2_Template h tpl = Raise e ->
  (exists e', fst (render_template h tpl data loc off w) = Raise e') /\
  current_locale (snd (render_template h tpl data loc off w))
  = current_locale w /\
  (forall d items vars,
     data = VDict d ->
     Py.lookup "week_tasks" d = Some (VDict items) ->
     Py.lookup "variables" d = Some vars ->
     Forall (fun kv => is_dict (snd kv)) items ->
     fst (render_template h tpl data loc off w) = Raise e).
Proof.
  intros Hc. split; [| split].
  - rewrite render_unfold, Hc.
    destruct (Py.getitem data "week_tasks") as [td | e1];
      [| cbn [fst]; eauto].
    destruct (Py.items td) as [its | e1]; [| cbn [fst]; eauto].
    destruct (tasks_of_items its data off loc) as [tasks | e1];
      [| cbn [fst]; eauto].
    destruct (Py.getitem data "variables") as [vars | e1];
      cbn [fst]; eauto.
  - rewrite render_unfold, Hc.
    destruct (Py.getitem data "week_tasks") as [td | e1]; [| reflexivity].
    destruct (Py.items td) as [its | e1]; [| reflexivity].
    destruct (tasks_of_items its data off loc) as [tasks | e1];
      [| reflexivity].
    destruct (Py.getitem data "variables") as [vars | e1]; reflexivity.
  - intros d items vars -> Hw Hv HF.
    rewrite render_unfold, Hc. unfold Py.getitem. rewrite Hw, Hv.
    cbn [Py.items].
    destruct (tasks_of_items_total d vars items off loc Hv HF)
      as (tasks & -> & _).
    reflexivity.
Qed.

(** X18. All the dates of one rendered sheet belong to one week: for any
    two tasks a render built, the dates computed on the same day lie in the
    same Monday-to-Sunday week, the one [week_offset] weeks from the week
    of today. *)
Theorem X18_one_week_per_render (items : list (string * value))
    (data : value) (off : Z) (loc : string) (w0 w0' : world)
    (tasks : list WeekdayTask) (t1 t2 : WeekdayTask)
    (w w1 w2 : world) (d1 d2 : Z) :
  make_week_tasks items data off loc w0 = (Ok tasks, w0') ->
  In t1 tasks -> In t2 tasks ->
  task_date t1 w = (Ok d1, w1) ->
  task_date t2 w = (Ok d2, w2) ->
  monday_of d1 = monday_of d2 /\
  monday_of d1 = monday_of (clock w) + 7 * off.
Proof.
  rewrite make_week_tasks_eq. intros H Hin1 Hin2 H1 H2.
  apply pair_equal_spec in H. destruct H as [H _].
  apply tasks_of_items_params in H. rewrite Forall_forall in H.
  destruct (H t1 Hin1) as (Ho1 & _). destruct (H t2 Hin2) as (Ho2 & _).
  apply task_date_Ok_inv in H1, H2.
  destruct H1 as (n1 & Hn1 & -> & _), H2 as (n2 & Hn2 & -> & _).
  apply WEEKDAY_MAP_range in Hn1, Hn2.
  rewrite Ho1, Ho2.
  rewrite (proj2 (weekday_monday_plus _ n1 Hn1)),
          (proj2 (weekday_monday_plus _ n2 Hn2)).
  unfold week_anchor. rewrite monday_of_shift_weeks. auto.
Qed.

End HostExtras.

(** ** The further properties on the example host *)

(** An unrecognized weekday read on 4 November 2026. *)
Lemma X9_formatted_date_exceptions_witness :
  Example.w0 = Example.w0 /\
  (KeyError "funday" = OverflowError \/
   KeyError "funday" = KeyError (weekday (Example.task "funday" 0)) \/
   KeyError "funday" = LocaleError).
Proof.
  exact (X9_formatted_date_exceptions Example.host
           (Example.task "funday" 0) Example.w0 Example.w0
           (KeyError "funday") eq_refl).
Defined.

(** A friday task in French on a host without the French locale. *)
Lemma X10_locale_error_iff_witness :
  formatted_date Example.host
    (mkWeekdayTask (VStr "00:00") (VStr "00:00")
       (mkDeferredDict (VDict []) (VDict [])) "friday" 0 "fr_FR.UTF-8")
    Example.w0
  = (Raise LocaleError, Example.w0).
Proof.
  apply (proj2 (X10_locale_error_iff Example.host
                  (mkWeekdayTask (VStr "00:00") (VStr "00:00")
                     (mkDeferredDict (VDict []) (VDict []))
                     "friday" 0 "fr_FR.UTF-8")
                  Example.w0)).
  split; [exists 739926; reflexivity | reflexivity].
Defined.

(** The Spanish friday task of next week. *)
Lemma X11_formatted_date_succeeds_witness :
  exists s,
    formatted_date Example.host (Example.tarea "friday" 1) Example.w0
    = (Ok s, mkWorld 739924 "es_ES.UTF-8" []) /\
    s <> [].
Proof.
  refine (X11_formatted_date_succeeds Example.host
            (Example.tarea "friday" 1) Example.w0 4 eq_refl _ _ _ eq_refl).
  - vm_compute. discriminate.
  - split; vm_compute; discriminate.
  - vm_compute. discriminate.
Defined.

(** A Spanish read followed by an English one. *)
Lemma X13_reads_do_not_interfere_witness :
  current_locale
    (snd (formatted_date Example.host (Example.task "monday" 0)
            (snd (formatted_date Example.host (Example.tarea "friday" 1)
                    Example.w0))))
  = "en_US.UTF-8"%string /\
  clock
    (snd (formatted_date Example.host (Example.task "monday" 0)
            (snd (formatted_date Example.host (Example.tarea "friday" 1)
                    Example.w0))))
  = 739924.
Proof.
  exact (proj2 (X13_reads_do_not_interfere Example.host
                  (Example.tarea "friday" 1) (Example.task "monday" 0)
                  Example.w0)
           (text_of_string "Viernes, 13 noviembre")
           (text_of_string "Monday, 2 November")
           (snd (formatted_date Example.host (Example.tarea "friday" 1)
                   Example.w0))
           (snd (formatted_date Example.host (Example.task "monday" 0)
                   (snd (formatted_date Example.host
                           (Example.tarea "friday" 1) Example.w0))))
           eq_refl eq_refl).
Defined.

(** A week whose tuesday was left empty in the YAML file. *)
Lemma X14_descriptor_not_a_mapping_witness :
  render_template Example.host Example.source
    (VDict [ ("variables"%string, VDict []);
             ("week_tasks"%string,
              VDict [ ("monday"%string, VDict []);
                      ("tuesday"%string, VNone) ]) ])
    "en_US.UTF-8" 0 Example.w0
  = (Raise AttributeError, Example.w0).
Proof.
  apply (X14_descriptor_not_a_mapping Example.host Example.source
           [ ("variables"%string, VDict []);
             ("week_tasks"%string,
              VDict [ ("monday"%string, VDict []);
                      ("tuesday"%string, VNone) ]) ]
           [ ("monday"%string, VDict []); ("tuesday"%string, VNone) ]
           (VDict []) "en_US.UTF-8"%string 0 Example.w0 eq_refl eq_refl).
  apply Exists_cons_tl. apply Exists_cons_hd.
  intros [d H]. discriminate.
Defined.

(** An empty YAML file, and a document whose [week_tasks] is a list. *)
Lemma X15_document_not_a_mapping_witness :
  render_template Example.host Example.source VNone "en_US.UTF-8" 0
    Example.w0 = (Raise TypeError, Example.w0) /\
  render_template Example.host Example.source
    (VDict [("week_tasks"%string, VList [])]) "en_US.UTF-8" 0 Example.w0
  = (Raise AttributeError, Example.w0).
Proof.
  split.
  - apply (proj1 (X15_document_not_a_mapping Example.host Example.source
                    VNone "en_US.UTF-8"%string 0 Example.w0)).
    intros [d H]. discriminate.
  - apply (proj2 (X15_document_not_a_mapping Example.host Example.source
                    (VDict [("week_tasks"%string, VList [])])
                    "en_US.UTF-8"%string 0 Example.w0)
             [("week_tasks"%string, VList [])] (VList []) eq_refl eq_refl).
    intros [d H]. discriminate.
Defined.

(** The two tasks of the example document, rendered in Spanish for the
    week after next. *)
Lemma X16_tasks_share_parameters_witness :
  exists tasks,
    make_week_tasks Example.doc_week_tasks Example.doc 2 "es_ES.UTF-8"
      Example.w0 = (Ok tasks, Example.w0) /\
    Forall (fun t =>
              week_offset t = 2 /\ locale t = "es_ES.UTF-8"%string /\
              Py.getitem Example.doc "variables"
              = Ok (dd_parent_data (variables t)))
           tasks.
Proof.
  eexists. split; [reflexivity |].
  exact (X16_tasks_share_parameters Example.doc_week_tasks Example.doc 2
           "es_ES.UTF-8" Example.w0 Example.w0 _ eq_refl).
Defined.

(** The example host with a compiler that rejects every template. *)
Lemma X17_template_does_not_compile_witness :
  fst (render_template
         (mkHost Example.locale_installed Example.day_name
            Example.month_name Example.str_upper
            (fun _ => Raise (TemplateError "unexpected end of template")))
         "{{ week_tasks" Example.doc "es_ES.UTF-8" 0 Example.w0)
  = Raise (TemplateError "unexpected end of template") /\
  current_locale
    (snd (render_template
            (mkHost Example.locale_installed Example.day_name
               Example.month_name Example.str_upper
               (fun _ => Raise (TemplateError "unexpected end of template")))
            "{{ week_tasks" Example.doc "es_ES.UTF-8" 0 Example.w0))
  = "C"%string.
Proof.
  pose proof (X17_template_does_not_compile
                (mkHost Example.locale_installed Example.day_name
                   Example.month_name Example.str_upper
                   (fun _ =>
                      Raise (TemplateError "unexpected end of template")))
                "{{ week_tasks" Example.doc "es_ES.UTF-8" 0 Example.w0
                (TemplateError "unexpected end of template") eq_refl)
    as (_ & Hloc & Hdoc).
  split; [| exact Hloc].
  apply (Hdoc Example.doc_bindings Example.doc_week_tasks
           (VDict [("a"%string, VInt 1)]) eq_refl eq_refl eq_refl).
  repeat constructor; eexists; reflexivity.
Defined.

(** Monday 2 and Friday 6 November 2026, the dates of the example
    document's tasks read on Wednesday 4 November. *)
Lemma X18_one_week_per_render_witness :
  monday_of 739922 = monday_of 739926 /\
  monday_of 739922 = monday_of 739924 + 7 * 0.
Proof.
  refine (X18_one_week_per_render Example.doc_week_tasks Example.doc 0
            "en_US.UTF-8" Example.w0 Example.w0
            [ mkWeekdayTask (VStr "09:00") (VStr "00:00")
                (mkDeferredDict (VDict [("b"%string, VInt 2)])
                   (VDict [("a"%string, VInt 1)]))
                "monday" 0 "en_US.UTF-8";
              mkWeekdayTask (VStr "00:00") (VStr "00:00")
                (mkDeferredDict (VDict []) (VDict [("a"%string, VInt 1)]))
                "friday" 0 "en_US.UTF-8" ]
            (mkWeekdayTask (VStr "09:00") (VStr "00:00")
               (mkDeferredDict (VDict [("b"%string, VInt 2)])
                  (VDict [("a"%string, VInt 1)]))
               "monday" 0 "en_US.UTF-8")
            (mkWeekdayTask (VStr "00:00") (VStr "00:00")
               (mkDeferredDict (VDict []) (VDict [("a"%string, VInt 1)]))
               "friday" 0 "en_US.UTF-8")
            Example.w0 Example.w0 Example.w0 739922 739926
            eq_refl _ _ eq_refl eq_refl).
  - left. reflexivity.
  - right. left. reflexivity.
Defined.
